(** * club-capelli: cart reducer, cart API bridge, product catalog route and
    product detail view, embedded from the TypeScript sources.

    Conventions of the embedding.
    - A JavaScript [number] that the program uses as a count, a stock level,
      a price or an identifier is an integer [Z]; [NaN], infinities and
      fractions are outside the model. The program compares such numbers and
      adds quantities; where it multiplies and sums prices
      ([getTotalPrice]) the model answers only as long as every value is an
      integer of magnitude at most 2^53, on which the arithmetic of doubles
      is exact (see [JS.exact]).
    - An optional field ([stock?: number]) is an [option]; [None] is
      [undefined].
    - Truthiness of a number is [truthy]; [a ?? b] is [nullish]; [a || b] on
      numbers is [or_else].
    - [try { ... } catch { ... }] is a [result] with [Throw] and [try_catch]. *)

From Stdlib Require Import ZArith List String Ascii Bool Lia.
From Stdlib Require Import DecimalString DecimalZ Sorted.
Import ListNotations.

Local Open Scope Z_scope.

(** ** JavaScript primitives used by the sources *)

Module JS.

(** [if (n)] for a number: zero is falsy. *)
Definition truthy (n : Z) : bool := negb (n =? 0).

(** [if (o)] for an optional number: [undefined] and zero are falsy. *)
Definition opt_truthy (o : option Z) : bool :=
  match o with
  | Some n => truthy n
  | None => false
  end.

(** [o ?? d]. *)
Definition nullish (o : option Z) (d : Z) : Z :=
  match o with
  | Some n => n
  | None => d
  end.

(** [a || b] on numbers. *)
Definition or_else (a b : Z) : Z := if truthy a then a else b.

(** [s || d] on an optional string: [undefined] and the empty string are
    falsy. *)
Definition str_or_else (s : option string) (d : string) : string :=
  match s with
  | Some EmptyString => d
  | Some t => t
  | None => d
  end.

(** [if (s)] for a string. *)
Definition str_truthy (s : string) : bool :=
  match s with
  | EmptyString => false
  | String _ _ => true
  end.

(** The integers on which the arithmetic of doubles is exact: those of
    magnitude at most 2^53. A sum or a product of two of them that is again
    one of them is computed without rounding. *)
Definition safe_integer (n : Z) : bool := (- 2 ^ 53 <=? n) && (n <=? 2 ^ 53).

(** [exact n] is [n] when the doubles of the source hold it exactly; the
    model does not follow the program beyond that. *)
Definition exact (n : Z) : option Z := if safe_integer n then Some n else None.

(** [`${n}`] for an integer: its decimal numeral. *)
Definition show (n : Z) : string := NilEmpty.string_of_int (Z.to_int n).

(** Exceptions: a computation returns a value or throws. *)
Inductive result (A : Type) : Type :=
| Ok (a : A)
| Throw (msg : string).
Arguments Ok {A} a.
Arguments Throw {A} msg.

Definition bind {A B : Type} (m : result A) (k : A -> result B) : result B :=
  match m with
  | Ok a => k a
  | Throw e => Throw e
  end.

Definition try_catch {A : Type} (body : result A) (handler : string -> A) : A :=
  match body with
  | Ok a => a
  | Throw e => handler e
  end.

End JS.

Notation "x <- m ;; k" := (JS.bind m (fun x => k))
  (at level 61, m at next level, right associativity).

(** ** Cart context (cart reducer, cart store, cart API bridge) *)

(** The external cart representation accepted by
    [transformApiCartToCartItems]. *)
Module ApiCart.

Record Item : Type := {
  id : string;
  title : string;
  unit_price : Z;
  quantity : Z;
  image : option string
}.

End ApiCart.

Module Cart.

Record CartItem : Type := {
  id : string;
  name : string;
  price : Z;
  image : string;
  stock : option Z;
  quantity : option Z
}.

Record CartState : Type := { items : list CartItem }.

Inductive CartAction : Type :=
| ADD_ITEM (payload : CartItem) (quantityToAdd : Z)
| REMOVE_ITEM (payload : string)
| UPDATE_QUANTITY (id : string) (quantity : Z)
| CLEAR_CART
| SET_CART (payload : list CartItem).

(** [{ ...item, quantity: q }]. *)
Definition with_quantity (item : CartItem) (q : Z) : CartItem :=
  {| id := id item; name := name item; price := price item;
     image := image item; stock := stock item; quantity := Some q |}.

(** [state.items.find((item) => item.id === i)]. *)
Definition find_item (i : string) (l : list CartItem) : option CartItem :=
  find (fun item => (id item =? i)%string) l.

(** [state.items.map((item) => item.id === i ? { ...item, quantity: q } : item)]. *)
Definition map_quantity (i : string) (q : Z) (l : list CartItem) : list CartItem :=
  map (fun item => if (id item =? i)%string then with_quantity item q else item) l.

(** [state.items.filter((item) => item.id !== i)]. *)
Definition remove_id (i : string) (l : list CartItem) : list CartItem :=
  filter (fun item => negb (id item =? i)%string) l.

(** [s && q > s] for an optional stock [s]. *)
Definition over_stock (s : option Z) (q : Z) : bool :=
  JS.opt_truthy s && (q >? JS.nullish s 0).

Definition cartReducer (state : CartState) (action : CartAction) : CartState :=
  match action with
  | ADD_ITEM payload quantityToAdd =>
      match find_item (id payload) (items state) with
      | Some existingItem =>
          let newQuantity := JS.nullish (quantity existingItem) 0 + quantityToAdd in
          if over_stock (stock existingItem) newQuantity then state
          else {| items := map_quantity (id payload) newQuantity (items state) |}
      | None =>
          if over_stock (stock payload) quantityToAdd then state
          else {| items := items state ++ [with_quantity payload quantityToAdd] |}
      end
  | REMOVE_ITEM payload =>
      {| items := remove_id payload (items state) |}
  | UPDATE_QUANTITY i q =>
      let existingItem := find_item i (items state) in
      if q <=? 0 then {| items := remove_id i (items state) |}
      else
        match existingItem with
        | Some e =>
            if q <? JS.nullish (quantity e) 0 then
              {| items := map_quantity i q (items state) |}
            else if JS.opt_truthy (stock e)
                    && (JS.nullish (quantity e) 0 <? JS.nullish (stock e) 0) then
              {| items := map_quantity i q (items state) |}
            else {| items := items state |}
        | None => {| items := items state |}
        end
  | SET_CART payload => {| items := payload |}
  | CLEAR_CART => {| items := [] |}
  end.

(** The cart store: [useReducer(cartReducer, { items: [] })] and the
    dispatching wrappers of [CartProvider]. *)
Definition initialState : CartState := {| items := [] |}.

Definition addItem (state : CartState) (item : CartItem) (q : option Z) : CartState :=
  cartReducer state (ADD_ITEM item (JS.nullish q 1)).

Definition removeItem (state : CartState) (i : string) : CartState :=
  cartReducer state (REMOVE_ITEM i).

Definition updateQuantity (state : CartState) (i : string) (q : Z) : CartState :=
  cartReducer state (UPDATE_QUANTITY i q).

Definition clearCart (state : CartState) : CartState :=
  cartReducer state CLEAR_CART.

Definition setCart (state : CartState) (l : list CartItem) : CartState :=
  cartReducer state (SET_CART l).

(** [(total, item) => total + item.price * (item.quantity ?? 0)], the
    callback of the reduction in [getTotalPrice]: [Some] when the price, the
    quantity, their product and the new total are integers that the doubles
    hold exactly, so that the value is what the source computes; [None]
    when one of them is not, where the source rounds. *)
Definition add_line_price (total : option Z) (item : CartItem) : option Z :=
  match total,
        JS.exact (price item),
        JS.exact (JS.nullish (quantity item) 0) with
  | Some t, Some p, Some k =>
      match JS.exact (p * k) with
      | Some m => JS.exact (t + m)
      | None => None
      end
  | _, _, _ => None
  end.

(** [state.items.reduce(..., 0)]. *)
Definition getTotalPrice (state : CartState) : option Z :=
  fold_left add_line_price (items state) (Some 0).

(** A sequence of dispatched actions. *)
Definition dispatch_all (state : CartState) (actions : list CartAction) : CartState :=
  fold_left cartReducer actions state.

(** *** Cart API bridge *)

Definition transformApiCartToCartItems (apiItems : list ApiCart.Item) : list CartItem :=
  map (fun item =>
         {| id := ApiCart.id item;
            name := ApiCart.title item;
            price := ApiCart.unit_price item;
            image := JS.str_or_else (ApiCart.image item) EmptyString;
            stock := None;
            quantity := Some (ApiCart.quantity item) |})
      apiItems.

(** The value of [apiCart.products] in the parsed response body. *)
Inductive ProductsValue : Type :=
| NotAnArray (is_truthy : bool)
| ProductArray (elems : list ApiCart.Item).

(** The parsed response body [apiCart]: [null] (reading a property of it
    throws), a value without a [products] property, or a value with one. *)
Inductive CartBody : Type :=
| BodyNull
| BodyWithoutProducts
| BodyProducts (products : ProductsValue).

(** What [fetch] and [response.json()] deliver: the request fails, or a
    response arrives with a status and a body that parses ([Some]) or does
    not ([None]). *)
Inductive FetchOutcome : Type :=
| NetworkFailure
| Response (status : Z) (json : option CartBody).

Definition getCartFromApi (window_defined : bool) (outcome : FetchOutcome)
  : list CartItem :=
  JS.try_catch
    (_ <- (if window_defined then JS.Ok tt
           else JS.Throw "getCartFromApi solo puede ejecutarse en el cliente") ;;
     resp <- (match outcome with
              | NetworkFailure => JS.Throw "fetch failed"
              | Response status json => JS.Ok (status, json)
              end) ;;
     apiCart <- (match snd resp with
                 | Some body => JS.Ok body
                 | None => JS.Throw "invalid json"
                 end) ;;
     let status := fst resp in
     if (status =? 200) || (status =? 404) then
       products <- (match apiCart with
                    | BodyNull => JS.Throw "cannot read properties of null"
                    | BodyWithoutProducts => JS.Ok None
                    | BodyProducts p => JS.Ok (Some p)
                    end) ;;
       match products with
       | Some (ProductArray (e :: es)) =>
           JS.Ok (transformApiCartToCartItems (e :: es))
       | _ => JS.Ok []
       end
     else JS.Throw ("Error al obtener el carrito: " ++ JS.show status))
    (fun _ => []).

End Cart.

(** ** Product catalog route ([app/api/products/route]) *)

Module Catalog.

(** A variant as it arrives in a request body ([variant: any]); only
    [variant_id] is tested for presence by the route. *)
Module Raw.

Record Variant : Type := {
  variant_id : option Z;
  sku : string;
  label : string;
  color : string;
  price : Z;
  promotional_price : Z;
  stock_total : Z;
  image_url : string;
  visible : bool;
  weight : Z
}.

End Raw.

Record IVariant : Type := {
  variant_id : Z;
  sku : string;
  label : string;
  color : string;
  price : Z;
  promotional_price : Z;
  effective_price : Z;
  stock_total : Z;
  image_url : string;
  visible : bool;
  weight : Z
}.

(** The body of [POST]. *)
Module ProductData.

Record t : Type := {
  name : option string;
  description : option string;
  brand : option string;
  product_id : option Z;
  images : option (list string);
  price : option Z;
  category : option string;
  variants : option (list Raw.Variant)
}.

End ProductData.

(** The object handed to [new Product(...)] by [POST]. *)
Module NewProduct.

Record t : Type := {
  name : string;
  description : string;
  brand : option string;
  product_id : option Z;
  images : list string;
  price : Z;
  salePrice : Z;
  stock : Z;
  quantity : Z;
  category : string;
  variants : list IVariant
}.

End NewProduct.

(** [updateData] of [PUT]: the request body without [id]. [V] is the type
    of the variants, raw in the request and processed in the update. *)
Module UpdateData.

Record t (V : Type) : Type := {
  name : option string;
  description : option string;
  brand : option string;
  images : option (list string);
  price : option Z;
  salePrice : option Z;
  stock : option Z;
  quantity : option Z;
  category : option string;
  variants : option (list V)
}.
Arguments name {V} _.
Arguments description {V} _.
Arguments brand {V} _.
Arguments images {V} _.
Arguments price {V} _.
Arguments salePrice {V} _.
Arguments stock {V} _.
Arguments quantity {V} _.
Arguments category {V} _.
Arguments variants {V} _.

End UpdateData.

(** A stored product document, as [GET] reads it. [_id] stands for the
    ObjectId, of which only the order is used. *)
Module Doc.

Record t : Type := {
  _id : Z;
  name : string;
  price : Z;
  salePrice : option Z;
  stock : option Z;
  quantity : option Z;
  category : option string
}.

End Doc.

Inductive HttpResponse (A : Type) : Type :=
| Json (status : Z) (body : A)
| Error (status : Z) (error : string).
Arguments Json {A} status body.
Arguments Error {A} status error.

(** [!session || session.user.role !== "admin"]; the session is given by
    the role of its user. *)
Definition unauthorized (session : option string) : bool :=
  match session with
  | Some role => negb (role =? "admin")%string
  | None => true
  end.

Definition opt_str_truthy (s : option string) : bool :=
  match s with
  | Some t => JS.str_truthy t
  | None => false
  end.

(** What the store answers to the calls of a mutating handler: each call
    returns or throws; [findByIdAndUpdate] and [findByIdAndDelete] return
    whether a document of the given id was found. *)
Record StoreOutcome : Type := {
  connectDB : JS.result unit;
  save : JS.result unit;
  findByIdAndUpdate : JS.result bool;
  findByIdAndDelete : JS.result bool
}.

(** [Math.min(p, ...ps)]. *)
Definition Math_min (p : Z) (ps : list Z) : Z := fold_left Z.min ps p.

Section Aggregator.

(** [gen i] is the value of [Date.now() + Math.random()] when it is
    evaluated for the variant at index [i]. *)
Variable gen : nat -> Z.

(** [{ ...variant, effective_price: ..., variant_id: ... }]. *)
Definition processVariant (i : nat) (variant : Raw.Variant) : IVariant :=
  {| variant_id :=
       if JS.opt_truthy (Raw.variant_id variant)
       then JS.nullish (Raw.variant_id variant) 0
       else gen i;
     sku := Raw.sku variant;
     label := Raw.label variant;
     color := Raw.color variant;
     price := Raw.price variant;
     promotional_price := Raw.promotional_price variant;
     effective_price :=
       if Raw.promotional_price variant >? 0
       then Raw.promotional_price variant
       else Raw.price variant;
     stock_total := Raw.stock_total variant;
     image_url := Raw.image_url variant;
     visible := Raw.visible variant;
     weight := Raw.weight variant |}.

Fixpoint processFrom (i : nat) (vs : list Raw.Variant) : list IVariant :=
  match vs with
  | [] => []
  | v :: rest => processVariant i v :: processFrom (S i) rest
  end.

(** [variants.map((variant) => ({ ... }))]. *)
Definition processVariants (vs : list Raw.Variant) : list IVariant :=
  processFrom 0 vs.

(** [processedVariants.reduce((sum, variant) => sum + (variant.stock_total || 0), 0)]. *)
Definition totalStock (processedVariants : list IVariant) : Z :=
  fold_left (fun sum variant => sum + JS.or_else (stock_total variant) 0)
            processedVariants 0.

(** [processedVariants.length > 0
      ? Math.min(...processedVariants.map((v) => v.effective_price || v.price))
      : fallback]. *)
Definition minPrice {A : Type} (inj : Z -> A) (processedVariants : list IVariant)
  (fallback : A) : A :=
  match map (fun v => JS.or_else (effective_price v) (price v)) processedVariants with
  | [] => fallback
  | p :: ps => inj (Math_min p ps)
  end.

(** [POST]. [body] is the value of [request.json()], [None] when that
    call throws or yields a value whose properties cannot be read. The body
    of a 201 response is the product handed to [save]; what the store adds
    to it (its [_id]) is not modelled. *)
Definition POST (session : option string) (body : option ProductData.t)
  (store : StoreOutcome) : HttpResponse NewProduct.t :=
  JS.try_catch
    (if unauthorized session then JS.Ok (Error 401 "Unauthorized")
     else
       productData <- (match body with
                       | Some b => JS.Ok b
                       | None => JS.Throw "request.json"
                       end) ;;
       match ProductData.price productData with
       | Some topPrice =>
           if negb (opt_str_truthy (ProductData.name productData))
              || negb (opt_str_truthy (ProductData.description productData))
           then JS.Ok (Error 400
                  "Faltan datos requeridos: nombre, descripción y precio")
           else
             _ <- connectDB store ;;
             let processedVariants :=
               match ProductData.variants productData with
               | Some vs => processVariants vs
               | None => []
               end in
             let totalStock := totalStock processedVariants in
             let minPrice := minPrice (fun z => z) processedVariants topPrice in
             let newProduct :=
               {| NewProduct.name :=
                    JS.str_or_else (ProductData.name productData) EmptyString;
                  NewProduct.description :=
                    JS.str_or_else (ProductData.description productData)
                                   EmptyString;
                  NewProduct.brand :=
                    if opt_str_truthy (ProductData.brand productData)
                    then ProductData.brand productData else None;
                  NewProduct.product_id :=
                    if JS.opt_truthy (ProductData.product_id productData)
                    then ProductData.product_id productData else None;
                  NewProduct.images :=
                    match ProductData.images productData with
                    | Some l => l
                    | None => []
                    end;
                  NewProduct.price := minPrice;
                  NewProduct.salePrice := minPrice;
                  NewProduct.stock := totalStock;
                  NewProduct.quantity := totalStock;
                  NewProduct.category :=
                    JS.str_or_else (ProductData.category productData)
                                   EmptyString;
                  NewProduct.variants := processedVariants |} in
             _ <- save store ;;
             JS.Ok (Json 201 newProduct)
       | None =>
           JS.Ok (Error 400
                    "Faltan datos requeridos: nombre, descripción y precio")
       end)
    (fun _ => Error 500 "Error al crear producto").

(** The variant branch of [PUT]: [if (updateData.variants) { ... }]. An
    array, also an empty one, is truthy. *)
Definition aggregateUpdate (updateData : UpdateData.t Raw.Variant)
  : UpdateData.t IVariant :=
  match UpdateData.variants updateData with
  | Some vs =>
      let processedVariants := processVariants vs in
      let totalStock := totalStock processedVariants in
      let minPrice := minPrice Some processedVariants (UpdateData.price updateData) in
      {| UpdateData.name := UpdateData.name updateData;
         UpdateData.description := UpdateData.description updateData;
         UpdateData.brand := UpdateData.brand updateData;
         UpdateData.images := UpdateData.images updateData;
         UpdateData.price := minPrice;
         UpdateData.salePrice := minPrice;
         UpdateData.stock := Some totalStock;
         UpdateData.quantity := Some totalStock;
         UpdateData.category := UpdateData.category updateData;
         UpdateData.variants := Some processedVariants |}
  | None =>
      {| UpdateData.name := UpdateData.name updateData;
         UpdateData.description := UpdateData.description updateData;
         UpdateData.brand := UpdateData.brand updateData;
         UpdateData.images := UpdateData.images updateData;
         UpdateData.price := UpdateData.price updateData;
         UpdateData.salePrice := UpdateData.salePrice updateData;
         UpdateData.stock := UpdateData.stock updateData;
         UpdateData.quantity := UpdateData.quantity updateData;
         UpdateData.category := UpdateData.category updateData;
         UpdateData.variants := None |}
  end.

(** [PUT]. [body] is the value of [request.json()] split into [id] and
    [updateData], [None] when that fails. The body of a 200 response is the
    id and the update that the store has applied to the document of that
    id; the document itself is the store's. *)
Definition PUT (session : option string)
  (body : option (option string * UpdateData.t Raw.Variant))
  (store : StoreOutcome)
  : HttpResponse (string * UpdateData.t IVariant) :=
  JS.try_catch
    (if unauthorized session then JS.Ok (Error 401 "Unauthorized")
     else
       productData <- (match body with
                       | Some b => JS.Ok b
                       | None => JS.Throw "request.json"
                       end) ;;
       match fst productData with
       | Some (String c i) =>
           _ <- connectDB store ;;
           let updateData := aggregateUpdate (snd productData) in
           updatedProduct <- findByIdAndUpdate store ;;
           if updatedProduct : bool
           then JS.Ok (Json 200 (String c i, updateData))
           else JS.Ok (Error 404 "Producto no encontrado")
       | _ => JS.Ok (Error 400 "No se encontró el ID del producto")
       end)
    (fun _ => Error 500 "Error al actualizar producto").

(** [DELETE]; [id] is the search parameter of that name. *)
Definition DELETE (session : option string) (id : option string)
  (store : StoreOutcome) : HttpResponse string :=
  JS.try_catch
    (if unauthorized session then JS.Ok (Error 401 "Unauthorized")
     else
       match id with
       | Some (String c i) =>
           _ <- connectDB store ;;
           result <- findByIdAndDelete store ;;
           if result : bool
           then JS.Ok (Json 200 "Producto eliminado correctamente"%string)
           else JS.Ok (Error 404 "Producto no encontrado")
       | _ => JS.Ok (Error 400 "ID de producto inválido")
       end)
    (fun _ => Error 500 "Error al eliminar producto").

End Aggregator.

(** *** Listing: the query language of the document store

    The store is an external collaborator; the fragment of its query
    language that [GET] uses is modelled here. The route hands the text
    query to the store unescaped, as a [$regex] with option [i]: what the
    store's regular expressions accept is not modelled but taken from the
    store, as is the answer of a comparison inside [$expr] on a document
    that lacks the field (see [Engine]). A comparison or an equality of a
    query on an absent field does not match; [$ne] and [$exists: false]
    do. *)

#[warnings="-register-all"] Inductive Cond : Type :=
| NameRegexI (q : string)            (* { name: { $regex: q, $options: "i" } } *)
| SalePriceGtLte (lo hi : Z)         (* { salePrice: { $gt: lo, $lte: hi } } *)
| SalePriceEq (n : Z)                (* { salePrice: n } *)
| SalePriceNe (n : Z)                (* { salePrice: { $ne: n } } *)
| SalePriceAbsent                    (* { salePrice: { $exists: false } } *)
| PriceLte (n : Z)                   (* { price: { $lte: n } } *)
| QuantityGt (n : Z)                 (* { quantity: { $gt: n } } *)
| QuantityEq (n : Z)                 (* { quantity: n } *)
| CategoryEq (c : string)            (* { category: c } *)
| ExprSalePriceLtPrice               (* { $expr: { $lt: ["$salePrice", "$price"] } } *)
| And (cs : list Cond)               (* { $and: [...] } *)
| Or (cs : list Cond).               (* { $or: [...] } *)

Definition lower_ascii (c : ascii) : ascii :=
  let n := nat_of_ascii c in
  if (Nat.leb 65 n && Nat.leb n 90)%bool then ascii_of_nat (n + 32) else c.

Fixpoint lower (s : string) : string :=
  match s with
  | EmptyString => EmptyString
  | String c t => String (lower_ascii c) (lower t)
  end.

Fixpoint contains (needle hay : string) : bool :=
  String.prefix needle hay
  || match hay with
     | EmptyString => false
     | String _ t => contains needle t
     end.

(** Case-insensitive substring test. *)
Definition contains_ci (needle hay : string) : bool :=
  contains (lower needle) (lower hay).

(** What the route leaves to the store: [regex_i pattern s] tells whether
    the regular expression [pattern], with option [i], matches [s];
    [expr_absent_lt] tells whether [$lt] inside [$expr] holds between an
    absent field and a number. *)
Record Engine : Type := {
  regex_i : string -> string -> bool;
  expr_absent_lt : bool
}.

Fixpoint matches (eng : Engine) (d : Doc.t) (c : Cond) : bool :=
  match c with
  | NameRegexI q => regex_i eng q (Doc.name d)
  | SalePriceGtLte lo hi =>
      match Doc.salePrice d with
      | Some s => (lo <? s) && (s <=? hi)
      | None => false
      end
  | SalePriceEq n =>
      match Doc.salePrice d with
      | Some s => s =? n
      | None => false
      end
  | SalePriceNe n =>
      match Doc.salePrice d with
      | Some s => negb (s =? n)
      | None => true
      end
  | SalePriceAbsent =>
      match Doc.salePrice d with
      | Some _ => false
      | None => true
      end
  | PriceLte n => Doc.price d <=? n
  | QuantityGt n =>
      match Doc.quantity d with
      | Some k => n <? k
      | None => false
      end
  | QuantityEq n =>
      match Doc.quantity d with
      | Some k => k =? n
      | None => false
      end
  | CategoryEq c =>
      match Doc.category d with
      | Some k => (k =? c)%string
      | None => false
      end
  | ExprSalePriceLtPrice =>
      match Doc.salePrice d with
      | Some s => s <? Doc.price d
      | None => expr_absent_lt eng
      end
  | And cs => forallb (matches eng d) cs
  | Or cs => existsb (matches eng d) cs
  end.

(** The [filter] object of [GET]: its [$or] key and its [category] key. The
    keys of a query object are conjoined. *)
Record Filter : Type := {
  or_ : option (list Cond);
  category : option string
}.

Definition filter_matches (eng : Engine) (f : Filter) (d : Doc.t) : bool :=
  match or_ f with
  | Some cs => matches eng d (Or cs)
  | None => true
  end
  && match category f with
     | Some c => matches eng d (CategoryEq c)
     | None => true
     end.

(** [Product.countDocuments(query)] for a query object with the given
    keys. *)
Definition countDocuments (eng : Engine) (catalog : list Doc.t)
  (query : list Cond) : Z :=
  Z.of_nat (List.length (filter (fun d => matches eng d (And query)) catalog)).

(** The search parameters as read at the head of [GET]: [q], [category] and
    [priceFilter] trimmed, [maxPrice] absent when the parameter is absent or
    empty. *)
Record ListParams : Type := {
  page : option Z;
  limit : option Z;
  q : string;
  p_category : string;
  priceFilter : string;
  maxPrice : option Z
}.

Definition buildFilter (params : ListParams) : Filter :=
  let filter0 :=
    if JS.str_truthy (q params)
    then {| or_ := Some [NameRegexI (q params)]; category := None |}
    else {| or_ := None; category := None |} in
  let filter1 :=
    if JS.str_truthy (p_category params)
    then {| or_ := or_ filter0; category := Some (p_category params) |}
    else filter0 in
  match maxPrice params with
  | Some m =>
      if JS.truthy m then
        {| or_ := Some [SalePriceGtLte 0 m;
                        And [Or [SalePriceEq 0; SalePriceAbsent]; PriceLte m]];
           category := category filter1 |}
      else filter1
  | None => filter1
  end.

(** The sort document: [{ _id: -1 }], [{ price: 1, _id: -1 }] or
    [{ price: -1, _id: -1 }], as the order "[a] comes no later than [b]". *)
Definition sort_before (priceFilter : string) (a b : Doc.t) : bool :=
  if (priceFilter =? "low-to-high")%string then
    (Doc.price a <? Doc.price b)
    || ((Doc.price a =? Doc.price b) && (Doc._id b <=? Doc._id a))
  else if (priceFilter =? "high-to-low")%string then
    (Doc.price b <? Doc.price a)
    || ((Doc.price a =? Doc.price b) && (Doc._id b <=? Doc._id a))
  else Doc._id b <=? Doc._id a.

Fixpoint insert_sorted (before : Doc.t -> Doc.t -> bool) (d : Doc.t)
  (l : list Doc.t) : list Doc.t :=
  match l with
  | [] => [d]
  | x :: rest =>
      if before d x then d :: x :: rest
      else x :: insert_sorted before d rest
  end.

Definition sort_docs (before : Doc.t -> Doc.t -> bool) (l : list Doc.t) : list Doc.t :=
  fold_right (insert_sorted before) [] l.

Record Summary : Type := {
  inStock : Z;
  outOfStock : Z;
  discounted : Z
}.

Record ListPayload : Type := {
  r_items : list Doc.t;
  r_total : Z;
  r_page : Z;
  r_limit : Z;
  r_totalPages : Z;
  r_summary : Summary
}.

(** [Math.ceil(a / b)] for [b > 0]. *)
Definition ceil_div (a b : Z) : Z := (a + b - 1) / b.

Definition GET (eng : Engine) (catalog : list Doc.t) (params : ListParams)
  : ListPayload :=
  let page := Z.max 1 (JS.nullish (page params) 1) in
  let limit := Z.min 100 (Z.max 1 (JS.nullish (limit params) 12)) in
  let filter_ := buildFilter params in
  let selected := filter (filter_matches eng filter_) catalog in
  let total := Z.of_nat (List.length selected) in
  let rawItems :=
    firstn (Z.to_nat limit)
      (skipn (Z.to_nat ((page - 1) * limit))
         (sort_docs (sort_before (priceFilter params)) selected)) in
  {| r_items := rawItems;
     r_total := total;
     r_page := page;
     r_limit := limit;
     r_totalPages := Z.max 1 (ceil_div total limit);
     r_summary :=
       {| inStock := countDocuments eng catalog [QuantityGt 0];
          outOfStock := countDocuments eng catalog [QuantityEq 0];
          discounted :=
            countDocuments eng catalog [SalePriceNe 0; ExprSalePriceLtPrice] |} |}.

End Catalog.

(** ** Product detail view *)

Module ProductPage.

Record IProduct : Type := {
  id : string;
  name : string;
  price : Z;
  variants : option (list Catalog.IVariant)
}.

(** What the handler does to its surroundings, in order. *)
Inductive Effect : Type :=
| ToastError (msg : string)
| ToastSuccess (msg : string)
| AddItem (item : Cart.CartItem) (quantity : Z).

(** [product?.variants?.[selectedVariant]]. *)
Definition selectedVariantData (product : option IProduct) (selectedVariant : nat)
  : option Catalog.IVariant :=
  match product with
  | Some p =>
      match variants p with
      | Some vs => nth_error vs selectedVariant
      | None => None
      end
  | None => None
  end.

(** [selectedVariantData?.stock_total || 0]. *)
Definition availableStock (v : option Catalog.IVariant) : Z :=
  match v with
  | Some d => JS.or_else (Catalog.stock_total d) 0
  | None => 0
  end.

(** [`${product.id}-${selectedVariantData.variant_id}`]. *)
Definition line_id (product : IProduct) (v : Catalog.IVariant) : string :=
  (id product ++ "-" ++ JS.show (Catalog.variant_id v))%string.

Definition handleAddToCart (product : option IProduct) (selectedVariant : nat)
  (quantity : Z) : list Effect :=
  let variantData := selectedVariantData product selectedVariant in
  let availableStock := availableStock variantData in
  match product, variantData with
  | Some p, Some v =>
      if availableStock =? 0 then [ToastError "Producto agotado"]
      else if quantity >? availableStock then
        [ToastError ("Solo hay " ++ JS.show availableStock
                     ++ " unidades disponibles")%string]
      else
        [AddItem
           {| Cart.id := line_id p v;
              Cart.name :=
                (name p ++ " - Color "
                 ++ JS.show (Z.of_nat selectedVariant + 1))%string;
              Cart.price := price p;
              Cart.image :=
                JS.str_or_else (Some (Catalog.image_url v)) "/placeholder.svg";
              Cart.stock := Some availableStock;
              Cart.quantity := None |}
           quantity;
         ToastSuccess (JS.show quantity ++ " producto(s) agregado(s) al carrito")%string]
  | _, _ => []
  end.

(** The handler run against the cart store: every [AddItem] effect is the
    store's [addItem]. *)
Definition run_effects (state : Cart.CartState) (effects : list Effect)
  : Cart.CartState :=
  fold_left (fun s e =>
               match e with
               | AddItem item q => Cart.addItem s item (Some q)
               | _ => s
               end)
            effects state.

End ProductPage.

(** * Vocabulary of the properties *)

Module CartSpec.
Import Cart.

(** The quantity of a line, absent counted as zero (as the reducer reads
    it). *)
Definition qty (item : CartItem) : Z := JS.nullish (quantity item) 0.

(** The line of id [i], when the cart has one, carries stock [S] and a
    quantity of at most [S]. The line of id [i] is the one the reducer
    finds for that id. *)
Definition line_within (i : string) (S : Z) (state : CartState) : Prop :=
  forall e, find_item i (items state) = Some e ->
            stock e = Some S /\ qty e <= S.

(** An AddItem action; when it is for the line [i], its payload carries
    stock [S]. *)
Definition add_on_line (i : string) (S : Z) (a : CartAction) : Prop :=
  match a with
  | ADD_ITEM payload _ => id payload = i -> stock payload = Some S
  | _ => False
  end.

(** The stock that governs an AddItem: that of the existing line, or of the
    payload for a fresh line. *)
Definition line_stock (state : CartState) (payload : CartItem) : option Z :=
  match find_item (id payload) (items state) with
  | Some e => stock e
  | None => stock payload
  end.

(** [existing.quantity + quantityToAdd], or [quantityToAdd] for a fresh
    line. *)
Definition newQuantity (state : CartState) (payload : CartItem) (q : Z) : Z :=
  match find_item (id payload) (items state) with
  | Some e => qty e + q
  | None => q
  end.

(** The cart-line invariant: a line with a defined, non-zero stock has a
    quantity of at most that stock, and every line has a positive
    quantity. *)
Definition cart_invariant (state : CartState) : Prop :=
  forall item, In item (items state) ->
    (forall S, stock item = Some S -> S <> 0 -> qty item <= S) /\ 0 < qty item.

Definition unique_ids (state : CartState) : Prop :=
  NoDup (map id (items state)).

(** The actions of the invariant: AddItem of a positive quantity,
    RemoveItem, ClearCart, and UpdateQuantity to a quantity within the stock
    of the line when that stock is non-zero and not yet reached. *)
Definition within_bounds (state : CartState) (a : CartAction) : Prop :=
  match a with
  | ADD_ITEM _ q => 0 < q
  | REMOVE_ITEM _ => True
  | UPDATE_QUANTITY i n =>
      forall e S, find_item i (items state) = Some e ->
                  stock e = Some S -> S <> 0 -> qty e < S -> n <= S
  | CLEAR_CART => True
  | SET_CART _ => False
  end.

(** The actions the invariant is claimed for. *)
Definition claimed_action (a : CartAction) : Prop :=
  match a with
  | ADD_ITEM _ q => 0 < q
  | REMOVE_ITEM _ => True
  | UPDATE_QUANTITY _ _ => True
  | CLEAR_CART => True
  | SET_CART _ => False
  end.

(** The API bridge, field by field. *)
Definition bridged (a : ApiCart.Item) (c : CartItem) : Prop :=
  id c = ApiCart.id a /\
  name c = ApiCart.title a /\
  price c = ApiCart.unit_price a /\
  quantity c = Some (ApiCart.quantity a) /\
  image c = match ApiCart.image a with
            | Some s => s
            | None => EmptyString
            end.

(** The line items a response body carries. *)
Definition body_items (body : CartBody) : list ApiCart.Item :=
  match body with
  | BodyProducts (ProductArray l) => l
  | _ => []
  end.

Definition line (i : string) (q : Z) (s : option Z) : CartItem :=
  {| id := i; name := "Tinte"; price := 10; image := EmptyString;
     stock := s; quantity := Some q |}.

End CartSpec.

Module CatalogSpec.
Import Catalog.

(** [effective_price = promotional_price if promotional_price > 0 else
    price]. *)
Definition effective_price_of (v : Raw.Variant) : Z :=
  if 0 <? Raw.promotional_price v then Raw.promotional_price v else Raw.price v.

(** [m] is the minimum of the list [l]. *)
Definition is_min (m : Z) (l : list Z) : Prop :=
  In m l /\ forall x, In x l -> m <= x.

(** The sum of the [stock_total] values. *)
Definition sum_stock (vs : list Raw.Variant) : Z :=
  fold_right (fun v acc => Raw.stock_total v + acc) 0 vs.

Definition set_visible (b : bool) (v : Raw.Variant) : Raw.Variant :=
  {| Raw.variant_id := Raw.variant_id v; Raw.sku := Raw.sku v;
     Raw.label := Raw.label v; Raw.color := Raw.color v;
     Raw.price := Raw.price v;
     Raw.promotional_price := Raw.promotional_price v;
     Raw.stock_total := Raw.stock_total v;
     Raw.image_url := Raw.image_url v;
     Raw.visible := b; Raw.weight := Raw.weight v |}.

Definition visible_only (vs : list Raw.Variant) : list Raw.Variant :=
  filter Raw.visible vs.





(** A store whose regular expressions are read as plain text, which is
    what every regular expression engine does for a pattern of letters. *)
Definition literal_engine : Engine :=
  {| regex_i := contains_ci; expr_absent_lt := true |}.


(** The price condition of [maxPrice]: the discounted price when there is
    one below the base price, the base price otherwise. *)
Definition price_within (m : Z) (d : Doc.t) : Prop :=
  match Doc.salePrice d with
  | Some s => if (0 <? s) && (s <? Doc.price d) then s <= m else Doc.price d <= m
  | None => Doc.price d <= m
  end.

(** What the aggregator leaves in the product, for the variants [vs] and the
    caller-supplied top-level price [fallback]. *)
Definition aggregated (vs : list Raw.Variant) (fallback : option Z)
  (price salePrice stock quantity : option Z) : Prop :=
  (vs <> [] -> exists m, price = Some m /\ is_min m (map effective_price_of vs)) /\
  (vs = [] -> price = fallback) /\
  stock = Some (sum_stock vs) /\
  salePrice = price /\
  quantity = stock.

(** A store on which every call succeeds and finds its document. *)
Definition store_ok : StoreOutcome :=
  {| connectDB := JS.Ok tt; save := JS.Ok tt;
     findByIdAndUpdate := JS.Ok true; findByIdAndDelete := JS.Ok true |}.

(** The required fields of a create: a non-empty name, a non-empty
    description and a price, which may be zero. *)
Definition complete (productData : ProductData.t) : Prop :=
  (exists n, ProductData.name productData = Some n /\ n <> EmptyString)
  /\ (exists d, ProductData.description productData = Some d /\ d <> EmptyString)
  /\ (exists z, ProductData.price productData = Some z).

(** The price of the product that [POST] creates, and the price that [PUT]
    hands to the store. *)
Definition post_price (gen : nat -> Z) (session : option string)
  (productData : ProductData.t) (store : StoreOutcome) : option Z :=
  match POST gen session (Some productData) store with
  | Json _ p => Some (NewProduct.price p)
  | Error _ _ => None
  end.

Definition put_price (gen : nat -> Z) (session : option string)
  (id : option string) (updateData : UpdateData.t Raw.Variant)
  (store : StoreOutcome) : option Z :=
  match PUT gen session (Some (id, updateData)) store with
  | Json _ (_, u) => UpdateData.price u
  | Error _ _ => None
  end.

(** [productData] with its variants replaced. *)
Definition with_variants (productData : ProductData.t)
  (vs : list Raw.Variant) : ProductData.t :=
  {| ProductData.name := ProductData.name productData;
     ProductData.description := ProductData.description productData;
     ProductData.brand := ProductData.brand productData;
     ProductData.product_id := ProductData.product_id productData;
     ProductData.images := ProductData.images productData;
     ProductData.price := ProductData.price productData;
     ProductData.category := ProductData.category productData;
     ProductData.variants := Some vs |}.

(** [updateData] with its variants replaced. *)
Definition with_update_variants (updateData : UpdateData.t Raw.Variant)
  (vs : list Raw.Variant) : UpdateData.t Raw.Variant :=
  {| UpdateData.name := UpdateData.name updateData;
     UpdateData.description := UpdateData.description updateData;
     UpdateData.brand := UpdateData.brand updateData;
     UpdateData.images := UpdateData.images updateData;
     UpdateData.price := UpdateData.price updateData;
     UpdateData.salePrice := UpdateData.salePrice updateData;
     UpdateData.stock := UpdateData.stock updateData;
     UpdateData.quantity := UpdateData.quantity updateData;
     UpdateData.category := UpdateData.category updateData;
     UpdateData.variants := Some vs |}.

(** The visibility flags of a variant list replaced by those that [f]
    chooses. *)
Definition revisible (f : Raw.Variant -> bool) (vs : list Raw.Variant)
  : list Raw.Variant :=
  map (fun v => set_visible (f v) v) vs.

Definition raw (vid : Z) (p promo stockTotal : Z) (vis : bool) : Raw.Variant :=
  {| Raw.variant_id := Some vid; Raw.sku := EmptyString; Raw.label := EmptyString;
     Raw.color := EmptyString; Raw.price := p; Raw.promotional_price := promo;
     Raw.stock_total := stockTotal; Raw.image_url := EmptyString;
     Raw.visible := vis; Raw.weight := 0 |}.

Definition product_data (p : Z) (vs : option (list Raw.Variant)) : ProductData.t :=
  {| ProductData.name := Some "Shampoo"%string;
     ProductData.description := Some "500 ml"%string;
     ProductData.brand := None; ProductData.product_id := None;
     ProductData.images := None; ProductData.price := Some p;
     ProductData.category := None; ProductData.variants := vs |}.

Definition update_data (p : option Z) (vs : option (list Raw.Variant))
  : UpdateData.t Raw.Variant :=
  {| UpdateData.name := None; UpdateData.description := None;
     UpdateData.brand := None; UpdateData.images := None;
     UpdateData.price := p; UpdateData.salePrice := None;
     UpdateData.stock := None; UpdateData.quantity := None;
     UpdateData.category := None; UpdateData.variants := vs |}.

Definition doc (i : Z) (n : string) (p : Z) (sale qty : option Z) : Doc.t :=
  {| Doc._id := i; Doc.name := n; Doc.price := p; Doc.salePrice := sale;
     Doc.stock := qty; Doc.quantity := qty; Doc.category := None |}.

Definition list_params (query : string) (m : option Z) : ListParams :=
  {| page := None; limit := None; q := query; p_category := EmptyString;
     priceFilter := EmptyString; maxPrice := m |}.

End CatalogSpec.

Module ProductPageSpec.
Import ProductPage.

(** The calls of the cart store's add among the effects. *)
Definition add_calls (effects : list Effect) : list (Cart.CartItem * Z) :=
  flat_map (fun e =>
              match e with
              | AddItem item q => [(item, q)]
              | _ => []
              end)
           effects.

Definition variant (vid stockTotal : Z) : Catalog.IVariant :=
  {| Catalog.variant_id := vid; Catalog.sku := EmptyString; Catalog.label := EmptyString;
     Catalog.color := EmptyString; Catalog.price := 100;
     Catalog.promotional_price := 0; Catalog.effective_price := 100;
     Catalog.stock_total := stockTotal; Catalog.image_url := EmptyString;
     Catalog.visible := true; Catalog.weight := 0 |}.

Definition product (vs : list Catalog.IVariant) : IProduct :=
  {| id := "p1"; name := "Tinte"; price := 100; variants := Some vs |}.

End ProductPageSpec.

(** * Further code of the sources *)

(** ** The state of the product detail view

    [useState(0)] for the selected variant and [useState(1)] for the
    quantity, with the handlers that change them. *)

Module ProductView.
Import ProductPage.

Record ViewState : Type := {
  selectedVariant : nat;
  quantity : Z
}.

Definition initialView : ViewState := {| selectedVariant := 0; quantity := 1 |}.

(** [availableStock] as the component computes it on each render. *)
Definition stockOf (product : option IProduct) (s : ViewState) : Z :=
  availableStock (selectedVariantData product (selectedVariant s)).

Definition incrementQuantity (product : option IProduct) (s : ViewState)
  : ViewState :=
  if quantity s <? stockOf product s
  then {| selectedVariant := selectedVariant s; quantity := quantity s + 1 |}
  else s.

Definition decrementQuantity (s : ViewState) : ViewState :=
  if quantity s >? 1
  then {| selectedVariant := selectedVariant s; quantity := quantity s - 1 |}
  else s.

(** The [onChange] of the quantity input; [parsed] is
    [Number.parseInt(e.target.value)], [None] for [NaN]. *)
Definition onQuantityChange (product : option IProduct) (parsed : option Z)
  (s : ViewState) : ViewState :=
  let val :=
    match parsed with
    | Some n => JS.or_else n 1
    | None => 1
    end in
  if (val >=? 1) && (val <=? stockOf product s)
  then {| selectedVariant := selectedVariant s; quantity := val |}
  else s.

Definition setSelectedVariant (index : nat) (s : ViewState) : ViewState :=
  {| selectedVariant := index; quantity := quantity s |}.

Inductive ViewEvent : Type :=
| ClickPlus
| ClickMinus
| TypeQuantity (parsed : option Z)
| ClickVariant (index : nat).

Definition handle (product : option IProduct) (s : ViewState) (e : ViewEvent)
  : ViewState :=
  match e with
  | ClickPlus => incrementQuantity product s
  | ClickMinus => decrementQuantity s
  | TypeQuantity parsed => onQuantityChange product parsed s
  | ClickVariant index => setSelectedVariant index s
  end.

Definition handle_all (product : option IProduct) (s : ViewState)
  (events : list ViewEvent) : ViewState :=
  fold_left (handle product) events s.

(** The click on "Agregar al carrito" in the view state [s]. *)
Definition clickAddToCart (product : option IProduct) (s : ViewState)
  : list Effect :=
  handleAddToCart product (selectedVariant s) (quantity s).

(** A visit of the detail view: clicks and keystrokes that change the view
    state, and clicks on "Agregar al carrito" that reach the cart store. The
    view state is kept after an add. *)
Inductive Click : Type :=
| View (e : ViewEvent)
| AddToCart.

Definition visit_step (product : option IProduct)
  (sc : ViewState * Cart.CartState) (c : Click) : ViewState * Cart.CartState :=
  match c with
  | View e => (handle product (fst sc) e, snd sc)
  | AddToCart =>
      (fst sc, run_effects (snd sc) (clickAddToCart product (fst sc)))
  end.

Definition visit (product : option IProduct) (cart : Cart.CartState)
  (clicks : list Click) : ViewState * Cart.CartState :=
  fold_left (visit_step product) clicks (initialView, cart).

End ProductView.

(** ** Vocabulary of the further properties *)

Module CartMoreSpec.
Import Cart CartSpec.

(** Two lines that differ at most in their quantity. *)
Definition same_but_quantity (a b : CartItem) : Prop :=
  id a = id b /\ name a = name b /\ price a = price b
  /\ image a = image b /\ stock a = stock b.

(** The sum of price times quantity over the lines. *)
Definition sum_lines (l : list CartItem) : Z :=
  fold_right (fun item acc => price item * qty item + acc) 0 l.

(** The sum of unit price times quantity over the items of a remote
    cart. *)
Definition api_total (l : list ApiCart.Item) : Z :=
  fold_right (fun a acc => ApiCart.unit_price a * ApiCart.quantity a + acc) 0 l.

(** Lines and remote items whose prices and quantities are non-negative
    integers that the doubles hold exactly. *)
Definition exact_line (item : CartItem) : Prop :=
  0 <= price item <= 2 ^ 53 /\ 0 <= qty item <= 2 ^ 53.

Definition exact_item (a : ApiCart.Item) : Prop :=
  0 <= ApiCart.unit_price a <= 2 ^ 53 /\ 0 <= ApiCart.quantity a <= 2 ^ 53.

(** The unit price an AddItem counts with: that of the existing line, or of
    the payload for a fresh line. *)
Definition unit_price_of (state : CartState) (payload : CartItem) : Z :=
  match find_item (id payload) (items state) with
  | Some e => price e
  | None => price payload
  end.

End CartMoreSpec.

Module CatalogMoreSpec.
Import Catalog.

Definition price_ascending (a b : Doc.t) : Prop := Doc.price a <= Doc.price b.
Definition price_descending (a b : Doc.t) : Prop := Doc.price b <= Doc.price a.
Definition newest_first (a b : Doc.t) : Prop := Doc._id b <= Doc._id a.

(** [a] comes no later than [b] under the sort document of the price
    filter. *)
Definition comes_before (priceFilter : string) (a b : Doc.t) : Prop :=
  sort_before priceFilter a b = true.

(** A processed variant carries the fields of the raw one. *)
Definition carries (v : Raw.Variant) (pv : IVariant) : Prop :=
  sku pv = Raw.sku v /\ label pv = Raw.label v /\ color pv = Raw.color v
  /\ price pv = Raw.price v /\ promotional_price pv = Raw.promotional_price v
  /\ stock_total pv = Raw.stock_total v /\ image_url pv = Raw.image_url v
  /\ visible pv = Raw.visible v /\ weight pv = Raw.weight v.

End CatalogMoreSpec.

(** * Properties *)

(** ** Facts about the JavaScript primitives *)

Module JSFacts.

Lemma truthy_true (n : Z) : JS.truthy n = true <-> n <> 0.
Proof.
  unfold JS.truthy. destruct (Z.eqb_spec n 0); simpl; split; intros; congruence.
Qed.

Lemma truthy_false (n : Z) : JS.truthy n = false <-> n = 0.
Proof.
  unfold JS.truthy. destruct (Z.eqb_spec n 0); simpl; split; intros; congruence.
Qed.

Lemma or_else_zero (n : Z) : JS.or_else n 0 = n.
Proof.
  unfold JS.or_else. destruct (JS.truthy n) eqn:E; [reflexivity|].
  apply truthy_false in E. congruence.
Qed.

(** Distinct integers have distinct numerals. *)
Lemma show_inj (a b : Z) : JS.show a = JS.show b -> a = b.
Proof.
  unfold JS.show. intros H.
  apply DecimalZ.to_int_inj.
  assert (Some (Z.to_int a) = Some (Z.to_int b)) as E.
  { rewrite <- (NilEmpty.isi (Z.to_int a)), <- (NilEmpty.isi (Z.to_int b)).
    now rewrite H. }
  now inversion E.
Qed.

Lemma append_inj_l (p s t : string) : (p ++ s)%string = (p ++ t)%string -> s = t.
Proof.
  induction p as [|c p IH]; simpl; intros H; [assumption|].
  inversion H. auto.
Qed.

End JSFacts.

(** ** The cart reducer *)

Module CartFacts.
Import Cart.

Lemma find_item_some (i : string) (l : list CartItem) (e : CartItem) :
  find_item i l = Some e -> In e l /\ id e = i.
Proof.
  unfold find_item. intros H. apply find_some in H. destruct H as [Hin Heq].
  split; [assumption|]. now apply String.eqb_eq.
Qed.

Lemma find_item_none (i : string) (l : list CartItem) :
  find_item i l = None -> ~ In i (map id l).
Proof.
  unfold find_item. intros H Hin. apply in_map_iff in Hin.
  destruct Hin as (x & Hx & Hin).
  pose proof (find_none _ _ H x Hin) as Hf. simpl in Hf.
  rewrite Hx, String.eqb_refl in Hf. discriminate.
Qed.

Lemma find_item_map_same (i : string) (q : Z) (l : list CartItem) :
  find_item i (map_quantity i q l)
  = option_map (fun e => with_quantity e q) (find_item i l).
Proof.
  unfold find_item, map_quantity.
  induction l as [|x l IH]; simpl; [reflexivity|].
  destruct (String.eqb_spec (id x) i) as [E|E]; simpl.
  - rewrite E, String.eqb_refl. reflexivity.
  - destruct (String.eqb_spec (id x) i); [contradiction|]. exact IH.
Qed.

Lemma find_item_map_other (i j : string) (q : Z) (l : list CartItem) :
  i <> j -> find_item i (map_quantity j q l) = find_item i l.
Proof.
  intros Hij. unfold find_item, map_quantity.
  induction l as [|x l IH]; simpl; [reflexivity|].
  destruct (String.eqb_spec (id x) j) as [E|E]; simpl.
  - destruct (String.eqb_spec (id x) i) as [E'|E']; [congruence|]. exact IH.
  - destruct (String.eqb_spec (id x) i); [reflexivity|]. exact IH.
Qed.

Lemma find_item_app (i : string) (l1 l2 : list CartItem) :
  find_item i (l1 ++ l2)
  = match find_item i l1 with
    | Some e => Some e
    | None => find_item i l2
    end.
Proof.
  unfold find_item. induction l1 as [|x l1 IH]; simpl; [reflexivity|].
  destruct (id x =? i)%string; [reflexivity|]. exact IH.
Qed.

Lemma find_item_remove (i : string) (l : list CartItem) :
  find_item i (remove_id i l) = None.
Proof.
  unfold find_item, remove_id. induction l as [|x l IH]; simpl; [reflexivity|].
  destruct (id x =? i)%string eqn:E; simpl; [exact IH|].
  rewrite E. exact IH.
Qed.

Lemma map_quantity_ids (i : string) (q : Z) (l : list CartItem) :
  map id (map_quantity i q l) = map id l.
Proof.
  unfold map_quantity. rewrite map_map. apply map_ext.
  intros x. destruct (id x =? i)%string; reflexivity.
Qed.

Lemma in_map_quantity (i : string) (q : Z) (l : list CartItem) (y : CartItem) :
  In y (map_quantity i q l) ->
  exists x, In x l /\
            ((id x = i /\ y = with_quantity x q) \/ (id x <> i /\ y = x)).
Proof.
  unfold map_quantity. intros H. apply in_map_iff in H.
  destruct H as (x & Hy & Hin). exists x. split; [assumption|].
  destruct (String.eqb_spec (id x) i); [left|right]; split; congruence.
Qed.

Lemma nodup_ids_unique (l : list CartItem) (a b : CartItem) :
  NoDup (map id l) -> In a l -> In b l -> id a = id b -> a = b.
Proof.
  induction l as [|x l IH]; simpl; intros Hnd Ha Hb Hid; [contradiction|].
  inversion Hnd as [|? ? Hnotin Hnd']; subst.
  destruct Ha as [Ha|Ha], Hb as [Hb|Hb]; subst.
  - reflexivity.
  - exfalso. apply Hnotin. rewrite Hid. now apply in_map.
  - exfalso. apply Hnotin. rewrite <- Hid. now apply in_map.
  - now apply IH.
Qed.

Lemma nodup_ids_remove (i : string) (l : list CartItem) :
  NoDup (map id l) -> NoDup (map id (remove_id i l)).
Proof.
  unfold remove_id. induction l as [|x l IH]; simpl; intros Hnd; [constructor|].
  inversion Hnd as [|? ? Hnotin Hnd']; subst.
  destruct (negb (id x =? i)%string); simpl; [|now apply IH].
  constructor; [|now apply IH].
  intros Hin. apply Hnotin. apply in_map_iff in Hin.
  destruct Hin as (y & Hy & Hin). apply filter_In in Hin.
  apply in_map_iff. exists y. tauto.
Qed.

Lemma over_stock_false (s : option Z) (q : Z) :
  over_stock s q = false ->
  forall S, s = Some S -> S <> 0 -> q <= S.
Proof.
  unfold over_stock. intros H S -> HS. simpl in H.
  apply JSFacts.truthy_true in HS. rewrite HS in H. simpl in H. lia.
Qed.

Lemma over_stock_true (S q : Z) :
  S <> 0 -> S < q -> over_stock (Some S) q = true.
Proof.
  unfold over_stock. intros HS Hq. simpl.
  apply JSFacts.truthy_true in HS. rewrite HS. simpl. lia.
Qed.

End CartFacts.

Module CartProps.
Import Cart CartSpec CartFacts.

Lemma reducer_state_eta (state : CartState) : {| items := items state |} = state.
Proof. destruct state. reflexivity. Qed.

(** One AddItem keeps the line of id [i] within its non-zero stock [S]. *)
Lemma add_step_within (i : string) (S : Z) (state : CartState) (a : CartAction) :
  S <> 0 -> line_within i S state -> add_on_line i S a ->
  line_within i S (cartReducer state a).
Proof.
  intros HS Hin Ha. destruct a as [payload q| | | |]; simpl in Ha; try contradiction.
  unfold cartReducer.
  destruct (find_item (id payload) (items state)) as [e|] eqn:Hfind.
  - destruct (over_stock (stock e) (JS.nullish (quantity e) 0 + q)) eqn:Hover;
      [assumption|].
    intros e' He'. simpl in He'.
    destruct (string_dec (id payload) i) as [E|E].
    + rewrite E in *. rewrite find_item_map_same, Hfind in He'. simpl in He'.
      inversion He'; subst e'. destruct (Hin e Hfind) as [Hstock _].
      split; [exact Hstock|].
      unfold qty. simpl.
      exact (over_stock_false _ _ Hover S Hstock HS).
    + rewrite find_item_map_other in He' by congruence. now apply Hin.
  - destruct (over_stock (stock payload) q) eqn:Hover; [assumption|].
    intros e' He'. simpl in He'. rewrite find_item_app in He'.
    destruct (find_item i (items state)) as [e0|] eqn:Hfind0.
    + inversion He'; subst e'. now apply Hin.
    + unfold find_item in He'. simpl in He'.
      destruct (String.eqb_spec (id payload) i) as [E|E]; [|discriminate].
      inversion He'; subst e'. simpl. specialize (Ha E).
      split; [exact Ha|].
      unfold qty. simpl. exact (over_stock_false _ _ Hover S Ha HS).
Qed.

(** C1 (amended). For a non-zero stock [S] and a cart in which the line of
    id [i] is absent or carries stock [S] with a quantity of at most [S],
    every sequence of AddItem actions leaves that line with a quantity of at
    most [S]; and a single AddItem whose new quantity (the existing quantity
    plus the quantity to add, or the quantity to add for a fresh line) is
    above [S] returns the state unchanged. *)
Theorem add_item_within_stock (i : string) (S : Z) (HS : S <> 0) :
  (forall state actions,
      line_within i S state -> Forall (add_on_line i S) actions ->
      line_within i S (dispatch_all state actions)) /\
  (forall state payload q,
      line_stock state payload = Some S -> S < newQuantity state payload q ->
      cartReducer state (ADD_ITEM payload q) = state).
Proof.
  split.
  - intros state actions Hin Hall. revert state Hin.
    unfold dispatch_all.
    induction Hall as [|a actions Ha _ IH]; intros state Hin; simpl.
    + exact Hin.
    + apply IH. now apply add_step_within.
  - intros state payload q. unfold line_stock, newQuantity, cartReducer, qty.
    destruct (find_item (id payload) (items state)) as [e|]; intros Hs Hq;
      rewrite Hs, over_stock_true by assumption; reflexivity.
Qed.

Lemma add_item_within_stock_witness :
  line_within "a" 3
    (dispatch_all initialState
       [ADD_ITEM (line "a" 0 (Some 3)) 2; ADD_ITEM (line "a" 0 (Some 3)) 2])
  /\ cartReducer {| items := [line "a" 2 (Some 3)] |}
                 (ADD_ITEM (line "a" 0 (Some 3)) 2)
     = {| items := [line "a" 2 (Some 3)] |}.
Proof.
  assert (3 <> 0) as H3 by lia.
  destruct (add_item_within_stock "a" 3 H3) as [Hseq Hone].
  split.
  - apply Hseq.
    + intros e He. discriminate He.
    + repeat constructor; simpl; intros _; reflexivity.
  - apply Hone; [reflexivity | vm_compute; reflexivity].
Defined.

(** C1 as stated fails: with a stock defined as zero the bound is not
    enforced, and a line that starts above its stock stays above it. *)
Lemma add_item_defined_stock_not_bounded :
  ~ (forall i S state actions,
        line_within i S state -> Forall (add_on_line i S) actions ->
        line_within i S (dispatch_all state actions))
  /\ ~ (forall state payload q S,
        line_stock state payload = Some S -> S < newQuantity state payload q ->
        cartReducer state (ADD_ITEM payload q) = state)
  /\ ~ (forall i S state actions e,
        S <> 0 -> Forall (add_on_line i S) actions ->
        find_item i (items (dispatch_all state actions)) = Some e ->
        stock e = Some S -> qty e <= S).
Proof.
  split; [|split].
  - intros H.
    assert (line_within "a" 0 initialState) as H0
      by (intros e He; discriminate He).
    assert (Forall (add_on_line "a" 0) [ADD_ITEM (line "a" 0 (Some 0)) 1]) as H1
      by (repeat constructor; intros _; reflexivity).
    destruct (H "a"%string 0 initialState _ H0 H1 (line "a" 1 (Some 0)) eq_refl)
      as [_ Hq].
    unfold qty in Hq. simpl in Hq. lia.
  - intros H.
    assert (0 < newQuantity initialState (line "a" 0 (Some 0)) 1) as H01
      by (vm_compute; reflexivity).
    specialize (H initialState (line "a" 0 (Some 0)) 1 0 eq_refl H01).
    discriminate H.
  - intros H.
    assert (3 <> 0) as H3 by lia.
    assert (Forall (add_on_line "a" 3) [ADD_ITEM (line "a" 0 (Some 3)) 1]) as H1
      by (repeat constructor; intros _; reflexivity).
    specialize (H "a"%string 3 {| items := [line "a" 10 (Some 3)] |} _
                  (line "a" 10 (Some 3)) H3 H1 eq_refl eq_refl).
    unfold qty in H. simpl in H. lia.
Qed.

(** C2. UpdateQuantity, case by case: a quantity of zero or less removes
    every line of that id; a decrease of an existing line is applied; an
    existing line with a non-zero stock whose current quantity is below that
    stock is set to the new quantity, whatever the new quantity is; in every
    other case the state is returned as it was. *)
Theorem update_quantity_cases (state : CartState) (i : string) (n : Z) :
  let r := cartReducer state (UPDATE_QUANTITY i n) in
  (n <= 0 ->
     items r = filter (fun item => negb (id item =? i)%string) (items state)
     /\ find_item i (items r) = None) /\
  (forall e, 0 < n -> find_item i (items state) = Some e -> n < qty e ->
     items r = map_quantity i n (items state)
     /\ find_item i (items r) = Some (with_quantity e n)) /\
  (forall e S, 0 < n -> find_item i (items state) = Some e -> qty e <= n ->
     stock e = Some S -> S <> 0 -> qty e < S ->
     items r = map_quantity i n (items state)
     /\ find_item i (items r) = Some (with_quantity e n)) /\
  (0 < n ->
     match find_item i (items state) with
     | Some e =>
         qty e <= n /\ (forall S, stock e = Some S -> S <> 0 -> S <= qty e)
     | None => True
     end ->
     r = state).
Proof.
  unfold cartReducer, qty. cbv zeta.
  split; [|split; [|split]].
  - intros Hn. destruct (Z.leb_spec n 0); [|lia].
    split; [reflexivity|]. simpl. apply find_item_remove.
  - intros e Hn Hfind Hlt. destruct (Z.leb_spec n 0); [lia|]. rewrite Hfind.
    destruct (Z.ltb_spec n (JS.nullish (quantity e) 0)); [|lia].
    split; [reflexivity|]. simpl. rewrite find_item_map_same, Hfind. reflexivity.
  - intros e S Hn Hfind Hge Hst HS Hlt.
    destruct (Z.leb_spec n 0); [lia|]. rewrite Hfind.
    assert ((if n <? JS.nullish (quantity e) 0
             then {| items := map_quantity i n (items state) |}
             else if JS.opt_truthy (stock e)
                     && (JS.nullish (quantity e) 0 <? JS.nullish (stock e) 0)
                  then {| items := map_quantity i n (items state) |}
                  else {| items := items state |})
            = {| items := map_quantity i n (items state) |}) as ->.
    { destruct (n <? JS.nullish (quantity e) 0); [reflexivity|].
      rewrite Hst. simpl. apply JSFacts.truthy_true in HS. rewrite HS. simpl.
      destruct (Z.ltb_spec (JS.nullish (quantity e) 0) S); [reflexivity | lia]. }
    split; [reflexivity|]. simpl. rewrite find_item_map_same, Hfind. reflexivity.
  - intros Hn Hcase. destruct (Z.leb_spec n 0); [lia|].
    destruct (find_item i (items state)) as [e|]; [|apply reducer_state_eta].
    destruct Hcase as [Hq Hs].
    destruct (Z.ltb_spec n (JS.nullish (quantity e) 0)); [lia|].
    destruct (stock e) as [S|] eqn:Hst; simpl; [|apply reducer_state_eta].
    destruct (JS.truthy S) eqn:Ht; simpl; [|apply reducer_state_eta].
    apply JSFacts.truthy_true in Ht. specialize (Hs S eq_refl Ht).
    destruct (Z.ltb_spec (JS.nullish (quantity e) 0) S); [lia|].
    apply reducer_state_eta.
Qed.

(** The line [{quantity: 1, stock: 3}] updated to 5 has quantity 5. *)
Lemma update_quantity_cases_witness :
  find_item "a"
    (items (cartReducer {| items := [line "a" 1 (Some 3)] |}
                        (UPDATE_QUANTITY "a" 5)))
  = Some (line "a" 5 (Some 3)).
Proof.
  destruct (update_quantity_cases {| items := [line "a" 1 (Some 3)] |} "a" 5)
    as (_ & _ & H & _).
  destruct (H (line "a" 1 (Some 3)) 3) as [_ Hfind].
  - lia.
  - reflexivity.
  - unfold qty. simpl. lia.
  - reflexivity.
  - lia.
  - unfold qty. simpl. lia.
  - exact Hfind.
Defined.

(** A line of the invariant stays one when its quantity is set to a
    positive value within its non-zero stock. *)
Lemma with_quantity_invariant (e : CartItem) (n : Z) :
  0 < n -> (forall S, stock e = Some S -> S <> 0 -> n <= S) ->
  (forall S, stock (with_quantity e n) = Some S -> S <> 0 ->
             qty (with_quantity e n) <= S)
  /\ 0 < qty (with_quantity e n).
Proof.
  intros Hn Hs. unfold qty. simpl. split; [exact Hs | exact Hn].
Qed.

Lemma map_quantity_invariant (state : CartState) (e : CartItem) (n : Z) :
  unique_ids state -> cart_invariant state ->
  find_item (id e) (items state) = Some e ->
  0 < n -> (forall S, stock e = Some S -> S <> 0 -> n <= S) ->
  cart_invariant {| items := map_quantity (id e) n (items state) |}.
Proof.
  intros Hu Hinv Hfind Hn Hs item Hin. simpl in Hin.
  apply in_map_quantity in Hin.
  destruct Hin as (x & Hx & [[Hid ->]|[_ ->]]); [|now apply Hinv].
  apply find_item_some in Hfind. destruct Hfind as [He _].
  assert (x = e) as -> by (apply (nodup_ids_unique (items state)); assumption).
  now apply with_quantity_invariant.
Qed.

(** C3 (amended). On a cart with unique line ids that satisfies the
    cart-line invariant, AddItem of a positive quantity, RemoveItem,
    ClearCart, and UpdateQuantity to a quantity that is within the stock of
    the line (when that stock is non-zero and the line is below it) yield a
    cart with unique line ids that satisfies the invariant: every line with
    a defined, non-zero stock has a quantity of at most that stock, and
    every line has a positive quantity. *)
Theorem reducer_preserves_invariant (state : CartState) (a : CartAction) :
  unique_ids state -> cart_invariant state -> within_bounds state a ->
  unique_ids (cartReducer state a) /\ cart_invariant (cartReducer state a).
Proof.
  intros Hu Hinv Ha.
  destruct a as [payload q|i|i n| |l]; simpl in Ha; try contradiction.
  - (* ADD_ITEM *)
    unfold cartReducer.
    destruct (find_item (id payload) (items state)) as [e|] eqn:Hfind.
    + destruct (over_stock (stock e) (JS.nullish (quantity e) 0 + q)) eqn:Hover;
        [now split|].
      destruct (find_item_some _ _ _ Hfind) as [He Hid].
      split.
      * unfold unique_ids. simpl. now rewrite map_quantity_ids.
      * rewrite <- Hid in *. apply map_quantity_invariant; try assumption.
        -- destruct (Hinv e He) as [_ Hpos]. unfold qty in Hpos. lia.
        -- intros S HS HS0. exact (over_stock_false _ _ Hover S HS HS0).
    + destruct (over_stock (stock payload) q) eqn:Hover; [now split|].
      split.
      * unfold unique_ids. simpl. rewrite map_app. simpl.
        apply NoDup_app; [exact Hu | repeat constructor; intros [] |].
        intros x Hx [Hy|[]]. subst x.
        exact (find_item_none _ _ Hfind Hx).
      * intros item Hin. simpl in Hin. apply in_app_or in Hin.
        destruct Hin as [Hin|[<-|[]]]; [now apply Hinv|].
        apply with_quantity_invariant; [exact Ha|].
        intros S HS HS0. exact (over_stock_false _ _ Hover S HS HS0).
  - (* REMOVE_ITEM *)
    simpl. split.
    + now apply nodup_ids_remove.
    + intros item Hin. simpl in Hin. apply filter_In in Hin. now apply Hinv.
  - (* UPDATE_QUANTITY *)
    unfold cartReducer. cbv zeta.
    destruct (Z.leb_spec n 0) as [Hn|Hn].
    + split.
      * now apply nodup_ids_remove.
      * intros item Hin. simpl in Hin. apply filter_In in Hin. now apply Hinv.
    + destruct (find_item i (items state)) as [e|] eqn:Hfind;
        [|now rewrite reducer_state_eta].
      destruct (find_item_some _ _ _ Hfind) as [He Hid].
      destruct (Z.ltb_spec n (JS.nullish (quantity e) 0)) as [Hlt|Hge].
      * split.
        -- unfold unique_ids. simpl. now rewrite map_quantity_ids.
        -- rewrite <- Hid in *. apply map_quantity_invariant; try assumption.
           intros S HS HS0. destruct (Hinv e He) as [Hb _].
           specialize (Hb S HS HS0). unfold qty in Hb. lia.
      * destruct (stock e) as [S|] eqn:HS; simpl;
          [|now rewrite reducer_state_eta].
        destruct (JS.truthy S) eqn:Ht; simpl; [|now rewrite reducer_state_eta].
        destruct (Z.ltb_spec (JS.nullish (quantity e) 0) S) as [Hbelow|_];
          [|now rewrite reducer_state_eta].
        apply JSFacts.truthy_true in Ht.
        split.
        -- unfold unique_ids. simpl. now rewrite map_quantity_ids.
        -- rewrite <- Hid in *. apply map_quantity_invariant; try assumption.
           intros S' HS' _. rewrite HS in HS'. inversion HS'; subst S'.
           exact (Ha e S eq_refl HS Ht Hbelow).
  - (* CLEAR_CART *)
    simpl. split; [constructor | intros item []].
Qed.

Lemma reducer_preserves_invariant_witness :
  cart_invariant
    (cartReducer {| items := [line "a" 1 (Some 3)] |} (UPDATE_QUANTITY "a" 3)).
Proof.
  apply (reducer_preserves_invariant
           {| items := [line "a" 1 (Some 3)] |} (UPDATE_QUANTITY "a" 3)).
  - unfold unique_ids. simpl. repeat constructor. intros [].
  - intros item [<-|[]]. unfold qty. simpl. split; [|lia].
    intros S HS _. inversion HS. lia.
  - simpl. intros e S He HS _ _. inversion He. subst e. inversion HS. lia.
Defined.

(** C3 as stated fails: UpdateQuantity raises a line above its stock, and
    without unique line ids AddItem does. *)
Lemma reducer_breaks_invariant :
  ~ (forall state a,
        unique_ids state -> cart_invariant state -> claimed_action a ->
        cart_invariant (cartReducer state a))
  /\ ~ (forall state a,
        cart_invariant state -> within_bounds state a ->
        cart_invariant (cartReducer state a)).
Proof.
  split; intros H.
  - assert (unique_ids {| items := [line "a" 1 (Some 3)] |}) as Hu
      by (unfold unique_ids; simpl; repeat constructor; intros []).
    assert (cart_invariant {| items := [line "a" 1 (Some 3)] |}) as Hinv.
    { intros item [<-|[]]. unfold qty. simpl. split; [|lia].
      intros S HS _. inversion HS. lia. }
    specialize (H _ (UPDATE_QUANTITY "a" 5) Hu Hinv I
                  (line "a" 5 (Some 3)) (or_introl eq_refl)).
    destruct H as [H _]. assert (3 <> 0) as H3 by lia.
    specialize (H 3 eq_refl H3).
    unfold qty in H. simpl in H. lia.
  - assert (cart_invariant
              {| items := [line "a" 1 (Some 5); line "a" 1 (Some 2)] |}) as Hinv.
    { intros item [<-|[<-|[]]]; unfold qty; simpl; (split; [|lia]);
        intros S HS _; inversion HS; lia. }
    assert (0 < 3) as H03 by lia.
    specialize (H _ (ADD_ITEM (line "a" 0 None) 3) Hinv H03
                  (line "a" 4 (Some 2)) (or_intror (or_introl eq_refl))).
    destruct H as [H _]. assert (2 <> 0) as H2 by lia.
    specialize (H 2 eq_refl H2).
    unfold qty in H. simpl in H. lia.
Qed.

(** *** Cart API bridge *)

Lemma transform_stock (apiItems : list ApiCart.Item) (l : CartItem) :
  In l (transformApiCartToCartItems apiItems) -> stock l = None.
Proof.
  unfold transformApiCartToCartItems. intros H. apply in_map_iff in H.
  destruct H as (a & <- & _). reflexivity.
Qed.

Lemma transform_bridged (apiItems : list ApiCart.Item) :
  Forall2 bridged apiItems (transformApiCartToCartItems apiItems).
Proof.
  induction apiItems as [|a rest IH]; simpl; constructor; [|exact IH].
  unfold bridged. simpl. repeat split.
  destruct (ApiCart.image a) as [[|c s]|]; reflexivity.
Qed.

(** C10. Every line produced by [transformApiCartToCartItems] has no
    stock; so when such a line is the line of the cart that an AddItem
    finds, the add is applied for every quantity to add: the line carries
    its former quantity plus the quantity added. *)
Theorem hydrated_line_add_always_applied
  (apiItems : list ApiCart.Item) (state : CartState) (l payload : CartItem)
  (q : Z) :
  In l (transformApiCartToCartItems apiItems) ->
  find_item (id payload) (items state) = Some l ->
  stock l = None
  /\ cartReducer state (ADD_ITEM payload q)
     = {| items := map_quantity (id payload) (qty l + q) (items state) |}
  /\ find_item (id payload) (items (cartReducer state (ADD_ITEM payload q)))
     = Some (with_quantity l (qty l + q)).
Proof.
  intros Hin Hfind. pose proof (transform_stock _ _ Hin) as Hstock.
  assert (cartReducer state (ADD_ITEM payload q)
          = {| items := map_quantity (id payload) (qty l + q) (items state) |})
    as Hred.
  { unfold cartReducer. rewrite Hfind, Hstock. reflexivity. }
  split; [exact Hstock|]. split; [exact Hred|].
  rewrite Hred. simpl. rewrite find_item_map_same, Hfind. reflexivity.
Qed.

Lemma hydrated_line_add_always_applied_witness :
  find_item "c1"
    (items (cartReducer
              {| items := transformApiCartToCartItems
                            [{| ApiCart.id := "c1"; ApiCart.title := "Tinte";
                                ApiCart.unit_price := 10; ApiCart.quantity := 2;
                                ApiCart.image := None |}] |}
              (ADD_ITEM (line "c1" 0 (Some 3)) 1000)))
  = Some (line "c1" 1002 None).
Proof.
  apply (hydrated_line_add_always_applied
           [{| ApiCart.id := "c1"; ApiCart.title := "Tinte";
               ApiCart.unit_price := 10; ApiCart.quantity := 2;
               ApiCart.image := None |}]
           _ (line "c1" 2 None) (line "c1" 0 (Some 3)) 1000).
  - simpl. left. reflexivity.
  - reflexivity.
Defined.

(** C7. A response of status 200 or 404 whose body parses is turned into
    the line items of its [products] array by the API bridge (id kept, title
    to name, unit price to price, quantity kept, a missing image to the empty
    string), which is the empty list when the body carries no items; any
    other status, a failed request, a body that does not parse, or a call
    outside the client yields the empty list. *)
Theorem remote_cart_fetch (window_defined : bool) (outcome : FetchOutcome) :
  (forall status body,
      window_defined = true -> outcome = Response status (Some body) ->
      status = 200 \/ status = 404 ->
      getCartFromApi window_defined outcome
      = transformApiCartToCartItems (body_items body)
      /\ Forall2 bridged (body_items body)
                 (getCartFromApi window_defined outcome)) /\
  (forall status json,
      outcome = Response status json -> status <> 200 -> status <> 404 ->
      getCartFromApi window_defined outcome = []) /\
  (outcome = NetworkFailure -> getCartFromApi window_defined outcome = []) /\
  (forall status,
      outcome = Response status None ->
      getCartFromApi window_defined outcome = []) /\
  (window_defined = false -> getCartFromApi window_defined outcome = []).
Proof.
  split; [|split; [|split; [|split]]].
  - intros status body -> -> Hstatus.
    assert (getCartFromApi true (Response status (Some body))
            = transformApiCartToCartItems (body_items body)) as Heq.
    { unfold getCartFromApi. simpl.
      assert ((status =? 200) || (status =? 404) = true) as ->
        by (destruct Hstatus; subst; reflexivity).
      destruct body as [| |[t|[|e es]]]; reflexivity. }
    split; [exact Heq|]. rewrite Heq. apply transform_bridged.
  - intros status json -> H200 H404. unfold getCartFromApi.
    destruct window_defined; [|reflexivity]. simpl.
    destruct json as [body|]; [|reflexivity]. simpl.
    destruct (Z.eqb_spec status 200); [contradiction|].
    destruct (Z.eqb_spec status 404); [contradiction|]. reflexivity.
  - intros ->. destruct window_defined; reflexivity.
  - intros status ->. destruct window_defined; reflexivity.
  - intros ->. reflexivity.
Qed.

Lemma remote_cart_fetch_witness :
  getCartFromApi true
    (Response 404
       (Some (BodyProducts
                (ProductArray
                   [{| ApiCart.id := "c1"; ApiCart.title := "Tinte";
                       ApiCart.unit_price := 10; ApiCart.quantity := 2;
                       ApiCart.image := None |}]))))
  = [line "c1" 2 None].
Proof.
  destruct (remote_cart_fetch true
              (Response 404
                 (Some (BodyProducts
                          (ProductArray
                             [{| ApiCart.id := "c1"; ApiCart.title := "Tinte";
                                 ApiCart.unit_price := 10; ApiCart.quantity := 2;
                                 ApiCart.image := None |}])))))
    as (H & _).
  destruct (H 404 _ eq_refl eq_refl) as [Heq _].
  - right. reflexivity.
  - rewrite Heq. reflexivity.
Defined.

End CartProps.

(** ** The variant aggregator *)

Module CatalogFacts.
Import Catalog CatalogSpec.

Section WithGen.
Variable gen : nat -> Z.

Lemma effective_price_processVariant (i : nat) (v : Raw.Variant) :
  effective_price (processVariant gen i v) = effective_price_of v.
Proof.
  unfold effective_price_of. simpl. now rewrite Z.gtb_ltb.
Qed.

(** [v.effective_price || v.price] is the effective price: it is zero only
    when the price is. *)
Lemma shown_price_processVariant (i : nat) (v : Raw.Variant) :
  JS.or_else (effective_price (processVariant gen i v))
             (price (processVariant gen i v))
  = effective_price_of v.
Proof.
  rewrite effective_price_processVariant. unfold JS.or_else.
  destruct (JS.truthy (effective_price_of v)) eqn:E; [reflexivity|].
  apply JSFacts.truthy_false in E. simpl. rewrite E.
  unfold effective_price_of in E.
  destruct (Z.ltb_spec 0 (Raw.promotional_price v)); [lia | congruence].
Qed.

Lemma shown_prices_processFrom (i : nat) (vs : list Raw.Variant) :
  map (fun v => JS.or_else (effective_price v) (price v)) (processFrom gen i vs)
  = map effective_price_of vs.
Proof.
  revert i. induction vs as [|v vs IH]; intros i; [reflexivity|].
  cbn [processFrom map]. now rewrite shown_price_processVariant, IH.
Qed.

Lemma totalStock_processFrom (i : nat) (vs : list Raw.Variant) (acc : Z) :
  fold_left (fun sum variant => sum + JS.or_else (stock_total variant) 0)
            (processFrom gen i vs) acc
  = acc + sum_stock vs.
Proof.
  revert i acc. induction vs as [|v vs IH]; intros i acc; simpl; [lia|].
  rewrite IH, JSFacts.or_else_zero. lia.
Qed.

Lemma totalStock_sum (vs : list Raw.Variant) :
  totalStock (processVariants gen vs) = sum_stock vs.
Proof.
  unfold totalStock, processVariants. now rewrite totalStock_processFrom.
Qed.

End WithGen.

Lemma Math_min_is_min (p : Z) (ps : list Z) : is_min (Math_min p ps) (p :: ps).
Proof.
  unfold Math_min. revert p.
  induction ps as [|x ps IH]; intros p; simpl.
  - split; [now left|]. intros y [<-|[]]. lia.
  - destruct (IH (Z.min p x)) as [Hin Hle]. split.
    + destruct Hin as [Hin|Hin]; [|now right; right].
      rewrite <- Hin. destruct (Z.min_spec p x) as [[_ ->]|[_ ->]]; simpl; auto.
    + intros y Hy.
      assert (fold_left Z.min ps (Z.min p x) <= Z.min p x) as Hm
        by (apply Hle; now left).
      destruct Hy as [<-|[<-|Hy]]; [lia | lia |].
      apply Hle. now right.
Qed.

Lemma minPrice_nonempty {A : Type} (gen : nat -> Z) (inj : Z -> A)
  (vs : list Raw.Variant) (fallback : A) :
  vs <> [] ->
  exists m, minPrice inj (processVariants gen vs) fallback = inj m
            /\ is_min m (map effective_price_of vs).
Proof.
  intros Hne. unfold minPrice, processVariants.
  rewrite shown_prices_processFrom.
  destruct vs as [|v vs]; [contradiction|]. simpl.
  eexists. split; [reflexivity|]. apply Math_min_is_min.
Qed.

Lemma effective_price_set_visible (b : bool) (v : Raw.Variant) :
  effective_price_of (set_visible b v) = effective_price_of v.
Proof. reflexivity. Qed.

Lemma minPrice_revisible {A : Type} (gen : nat -> Z) (inj : Z -> A)
  (f : Raw.Variant -> bool) (vs : list Raw.Variant) (fallback : A) :
  minPrice inj (processVariants gen (revisible f vs)) fallback
  = minPrice inj (processVariants gen vs) fallback.
Proof.
  unfold minPrice, processVariants, revisible.
  rewrite !shown_prices_processFrom, map_map. reflexivity.
Qed.

End CatalogFacts.

Module CatalogProps.
Import Catalog CatalogSpec CatalogFacts.

Lemma aggregated_of_min (gen : nat -> Z) (vs : list Raw.Variant)
  (fallback : option Z) :
  aggregated vs fallback
    (minPrice Some (processVariants gen vs) fallback)
    (minPrice Some (processVariants gen vs) fallback)
    (Some (totalStock (processVariants gen vs)))
    (Some (totalStock (processVariants gen vs))).
Proof.
  unfold aggregated. rewrite totalStock_sum. repeat split.
  - intros Hne. now apply minPrice_nonempty.
  - intros ->. reflexivity.
Qed.

Lemma minPrice_Some (vs : list IVariant) (fallback : Z) :
  Some (minPrice (fun z => z) vs fallback) = minPrice Some vs (Some fallback).
Proof.
  unfold minPrice.
  destruct (map (fun v => JS.or_else (effective_price v) (price v)) vs);
    reflexivity.
Qed.

(** What a [Json] answer of [POST] holds. *)
Lemma POST_json (gen : nat -> Z) (session : option string)
  (productData : ProductData.t) (store : StoreOutcome) (status : Z)
  (p : NewProduct.t) :
  POST gen session (Some productData) store = Json status p ->
  let vs := match ProductData.variants productData with
            | Some vs => vs
            | None => []
            end in
  status = 201
  /\ session = Some "admin"%string
  /\ connectDB store = JS.Ok tt /\ save store = JS.Ok tt
  /\ opt_str_truthy (ProductData.name productData) = true
  /\ opt_str_truthy (ProductData.description productData) = true
  /\ (exists topPrice,
        ProductData.price productData = Some topPrice
        /\ NewProduct.price p
           = minPrice (fun z => z) (processVariants gen vs) topPrice)
  /\ NewProduct.salePrice p = NewProduct.price p
  /\ NewProduct.stock p = totalStock (processVariants gen vs)
  /\ NewProduct.quantity p = NewProduct.stock p
  /\ NewProduct.variants p = processVariants gen vs
  /\ Some (NewProduct.name p) = ProductData.name productData
  /\ Some (NewProduct.description p) = ProductData.description productData.
Proof.
  unfold POST. destruct (unauthorized session) eqn:Hs; [discriminate|].
  unfold unauthorized in Hs. destruct session as [role|]; [|discriminate].
  destruct (String.eqb_spec role "admin"); [subst role | discriminate].
  cbn [JS.bind JS.try_catch].
  destruct (ProductData.price productData) as [topPrice|]; [|discriminate].
  destruct (opt_str_truthy (ProductData.name productData)) eqn:Hn;
    [|discriminate].
  destruct (opt_str_truthy (ProductData.description productData)) eqn:Hd;
    [|discriminate].
  cbn [negb orb].
  destruct (connectDB store) as [[]|e]; [|discriminate].
  destruct (save store) as [[]|e]; [|discriminate].
  cbn [JS.bind JS.try_catch]. intros H. inversion H; subst; clear H.
  cbn [NewProduct.price NewProduct.salePrice NewProduct.stock
       NewProduct.quantity NewProduct.variants NewProduct.name
       NewProduct.description].
  assert (match ProductData.variants productData with
          | Some vs => processVariants gen vs
          | None => []
          end
          = processVariants gen match ProductData.variants productData with
                                | Some vs => vs
                                | None => []
                                end) as ->
    by (destruct (ProductData.variants productData); reflexivity).
  repeat split; try reflexivity.
  - exists topPrice. split; reflexivity.
  - destruct (ProductData.name productData) as [[|c n]|];
      try discriminate; reflexivity.
  - destruct (ProductData.description productData) as [[|c n]|];
      try discriminate; reflexivity.
Qed.

(** A complete body is created when the store connects and saves. *)
Lemma POST_created (gen : nat -> Z) (productData : ProductData.t)
  (store : StoreOutcome) :
  complete productData ->
  connectDB store = JS.Ok tt -> save store = JS.Ok tt ->
  exists p, POST gen (Some "admin"%string) (Some productData) store = Json 201 p.
Proof.
  intros ((n & Hn & Hn0) & (d & Hd & Hd0) & (z & Hz)) Hc Hsave.
  unfold POST. simpl. rewrite Hz, Hn, Hd, Hc, Hsave.
  destruct n as [|c n]; [contradiction|].
  destruct d as [|c' d]; [contradiction|]. simpl.
  eexists. reflexivity.
Qed.

(** What a [Json] answer of [PUT] holds. *)
Lemma PUT_json (gen : nat -> Z) (session : option string) (id : option string)
  (updateData : UpdateData.t Raw.Variant) (store : StoreOutcome) (status : Z)
  (i : string) (u : UpdateData.t IVariant) :
  PUT gen session (Some (id, updateData)) store = Json status (i, u) ->
  status = 200 /\ session = Some "admin"%string /\ id = Some i
  /\ i <> EmptyString /\ u = aggregateUpdate gen updateData.
Proof.
  unfold PUT. destruct (unauthorized session) eqn:Hs; [discriminate|].
  unfold unauthorized in Hs. destruct session as [role|]; [|discriminate].
  destruct (String.eqb_spec role "admin"); [subst role | discriminate].
  cbn [JS.bind JS.try_catch fst snd].
  destruct id as [[|c rest]|]; try discriminate.
  destruct (connectDB store) as [[]|e]; [|discriminate].
  destruct (findByIdAndUpdate store) as [[|]|e]; try discriminate.
  cbn [JS.bind JS.try_catch]. intros H. inversion H; subst.
  repeat split; discriminate.
Qed.

(** An update with an id is applied when the store connects and finds the
    document. *)
Lemma PUT_updated (gen : nat -> Z) (c : ascii) (i : string)
  (updateData : UpdateData.t Raw.Variant) (store : StoreOutcome) :
  connectDB store = JS.Ok tt -> findByIdAndUpdate store = JS.Ok true ->
  PUT gen (Some "admin"%string) (Some (Some (String c i), updateData)) store
  = Json 200 (String c i, aggregateUpdate gen updateData).
Proof.
  intros Hc Hf. unfold PUT. simpl. rewrite Hc, Hf. reflexivity.
Qed.

Lemma aggregateUpdate_aggregated (gen : nat -> Z)
  (updateData : UpdateData.t Raw.Variant) (vs : list Raw.Variant) :
  UpdateData.variants updateData = Some vs ->
  aggregated vs (UpdateData.price updateData)
    (UpdateData.price (aggregateUpdate gen updateData))
    (UpdateData.salePrice (aggregateUpdate gen updateData))
    (UpdateData.stock (aggregateUpdate gen updateData))
    (UpdateData.quantity (aggregateUpdate gen updateData)).
Proof.
  intros Hvs. unfold aggregateUpdate. rewrite Hvs. simpl.
  apply aggregated_of_min.
Qed.

(** C4. After the aggregator has run, on a create and on an update whose
    patch carries variants: with a non-empty variant list the price of the
    product is the minimum of the effective prices of the variants (the
    promotional price when it is positive, the price otherwise), with an
    empty one it is the caller-supplied top-level price; the stock is the
    sum of the [stock_total] values; [salePrice] equals [price] and
    [quantity] equals [stock]. An administrator's create of a complete body
    and update with an id are answered with such a product whenever the
    store connects and saves, or finds the document. *)
Theorem aggregator_price_and_stock (gen : nat -> Z) :
  (forall session productData store status p,
      POST gen session (Some productData) store = Json status p ->
      aggregated
        (match ProductData.variants productData with
         | Some vs => vs
         | None => []
         end)
        (ProductData.price productData)
        (Some (NewProduct.price p)) (Some (NewProduct.salePrice p))
        (Some (NewProduct.stock p)) (Some (NewProduct.quantity p))) /\
  (forall productData store,
      complete productData ->
      connectDB store = JS.Ok tt -> save store = JS.Ok tt ->
      exists p,
        POST gen (Some "admin"%string) (Some productData) store = Json 201 p) /\
  (forall session id updateData vs store status i u,
      UpdateData.variants updateData = Some vs ->
      PUT gen session (Some (id, updateData)) store = Json status (i, u) ->
      aggregated vs (UpdateData.price updateData)
        (UpdateData.price u) (UpdateData.salePrice u)
        (UpdateData.stock u) (UpdateData.quantity u)) /\
  (forall c i updateData vs store,
      UpdateData.variants updateData = Some vs ->
      connectDB store = JS.Ok tt -> findByIdAndUpdate store = JS.Ok true ->
      exists u,
        PUT gen (Some "admin"%string) (Some (Some (String c i), updateData))
            store
        = Json 200 (String c i, u)
        /\ aggregated vs (UpdateData.price updateData)
             (UpdateData.price u) (UpdateData.salePrice u)
             (UpdateData.stock u) (UpdateData.quantity u)).
Proof.
  split; [|split; [|split]].
  - intros session productData store status p H.
    apply POST_json in H. cbv zeta in H.
    destruct H as (_ & _ & _ & _ & _ & _ & (topPrice & Htop & Hprice)
                   & Hsale & Hstock & Hq & _).
    rewrite Hq, Hsale, Hstock, Hprice, Htop, minPrice_Some.
    apply aggregated_of_min.
  - intros productData store. apply POST_created.
  - intros session id updateData vs store status i u Hvs H.
    apply PUT_json in H. destruct H as (_ & _ & _ & _ & ->).
    now apply aggregateUpdate_aggregated.
  - intros c i updateData vs store Hvs Hc Hf.
    exists (aggregateUpdate gen updateData).
    split; [now apply PUT_updated | now apply aggregateUpdate_aggregated].
Qed.

(** The scenario of the specification, created and then sent as an update:
    variants of prices 100 (promotion 80, stock 5) and 120 (no promotion,
    stock 0) give price 80, stock 5. *)
Lemma aggregator_price_and_stock_witness :
  (exists p,
      POST (fun _ => 0) (Some "admin"%string)
           (Some (product_data 999
                    (Some [raw 1 100 80 5 true; raw 2 120 0 0 true])))
           store_ok
      = Json 201 p
      /\ NewProduct.price p = 80 /\ NewProduct.stock p = 5)
  /\ (exists u,
        PUT (fun _ => 0) (Some "admin"%string)
            (Some (Some "p1"%string,
                   update_data None
                     (Some [raw 1 100 80 5 true; raw 2 120 0 0 true])))
            store_ok
        = Json 200 ("p1"%string, u)
        /\ UpdateData.price u = Some 80 /\ UpdateData.stock u = Some 5
        /\ aggregated [raw 1 100 80 5 true; raw 2 120 0 0 true] None
             (UpdateData.price u) (UpdateData.salePrice u)
             (UpdateData.stock u) (UpdateData.quantity u)).
Proof.
  split.
  - destruct (proj1 (proj2 (aggregator_price_and_stock (fun _ => 0)))
                (product_data 999
                   (Some [raw 1 100 80 5 true; raw 2 120 0 0 true]))
                store_ok) as (p & Hp).
    + repeat split; eexists; try split; try reflexivity; discriminate.
    + reflexivity.
    + reflexivity.
    + exists p. split; [exact Hp|].
      vm_compute in Hp. inversion Hp. split; reflexivity.
  - destruct (proj2 (proj2 (proj2 (aggregator_price_and_stock (fun _ => 0))))
                "p"%char "1"%string
                (update_data None
                   (Some [raw 1 100 80 5 true; raw 2 120 0 0 true]))
                [raw 1 100 80 5 true; raw 2 120 0 0 true] store_ok
                eq_refl eq_refl eq_refl) as (u & Hu & Hagg).
    exists u. split; [exact Hu|].
    split; [|split; [|exact Hagg]];
      vm_compute in Hu; inversion Hu; reflexivity.
Defined.

(** C6 as stated fails: a variant with [visible = false] sets the price of
    the product when it is the cheapest. *)
Lemma hidden_variant_sets_price :
  ~ (forall gen session productData store vs status p,
        ProductData.variants productData = Some vs ->
        POST gen session (Some productData) store = Json status p ->
        visible_only vs <> [] ->
        is_min (NewProduct.price p) (map effective_price_of (visible_only vs))).
Proof.
  intros H.
  destruct (POST (fun _ => 0) (Some "admin"%string)
              (Some (product_data 999
                       (Some [raw 1 100 0 5 true; raw 2 50 0 5 false])))
              store_ok)
    as [status p|status e] eqn:E; [|discriminate E].
  assert (visible_only [raw 1 100 0 5 true; raw 2 50 0 5 false] <> [])
    as Hvis by (vm_compute; discriminate).
  destruct (H (fun _ => 0) (Some "admin"%string)
              (product_data 999 (Some [raw 1 100 0 5 true; raw 2 50 0 5 false]))
              store_ok
              [raw 1 100 0 5 true; raw 2 50 0 5 false] status p eq_refl E Hvis)
    as [Hin _].
  vm_compute in E. inversion E; subst. simpl in Hin.
  destruct Hin as [Hin|[]]. discriminate Hin.
Qed.

Lemma is_min_least (m x : Z) (l : list Z) :
  is_min m l -> In x l -> (forall y, In y l -> x <= y) -> m = x.
Proof.
  intros [Hin Hle] Hx Hall. specialize (Hle x Hx). specialize (Hall m Hin). lia.
Qed.

Lemma least_effective_price (vs : list Raw.Variant) (v : Raw.Variant) (m : Z) :
  is_min m (map effective_price_of vs) -> In v vs ->
  (forall w, In w vs -> effective_price_of v <= effective_price_of w) ->
  m = effective_price_of v.
Proof.
  intros Hmin Hv Hall. apply (is_min_least _ _ _ Hmin); [now apply in_map|].
  intros y Hy. apply in_map_iff in Hy. destruct Hy as (w & <- & Hw). auto.
Qed.

(** C6 (amended). The price of the product is the minimum of the effective
    prices of all the variants, whatever their [visible] flag, on a create
    and on an update: a variant whose effective price is the least, also one
    with [visible = false], gives the product its price, and replacing the
    flags of the variant list leaves the price unchanged. An
    administrator's create of a complete body and update with an id get such
    a price whenever the store connects and saves, or finds the document. *)
Theorem price_over_all_variants (gen : nat -> Z) (vs : list Raw.Variant) :
  vs <> [] ->
  (forall session productData store status p,
      ProductData.variants productData = Some vs ->
      POST gen session (Some productData) store = Json status p ->
      is_min (NewProduct.price p) (map effective_price_of vs)
      /\ forall v, In v vs ->
           (forall w, In w vs -> effective_price_of v <= effective_price_of w) ->
           NewProduct.price p = effective_price_of v) /\
  (forall session id updateData store status i u,
      UpdateData.variants updateData = Some vs ->
      PUT gen session (Some (id, updateData)) store = Json status (i, u) ->
      exists m,
        UpdateData.price u = Some m
        /\ is_min m (map effective_price_of vs)
        /\ forall v, In v vs ->
             (forall w, In w vs -> effective_price_of v <= effective_price_of w) ->
             m = effective_price_of v) /\
  (forall session productData store f,
      ProductData.variants productData = Some vs ->
      post_price gen session (with_variants productData (revisible f vs)) store
      = post_price gen session productData store) /\
  (forall session id updateData store f,
      UpdateData.variants updateData = Some vs ->
      put_price gen session id
                (with_update_variants updateData (revisible f vs)) store
      = put_price gen session id updateData store) /\
  (forall productData store,
      ProductData.variants productData = Some vs ->
      complete productData ->
      connectDB store = JS.Ok tt -> save store = JS.Ok tt ->
      exists m,
        post_price gen (Some "admin"%string) productData store = Some m
        /\ is_min m (map effective_price_of vs)) /\
  (forall c i updateData store,
      UpdateData.variants updateData = Some vs ->
      connectDB store = JS.Ok tt -> findByIdAndUpdate store = JS.Ok true ->
      exists m,
        put_price gen (Some "admin"%string) (Some (String c i)) updateData store
        = Some m
        /\ is_min m (map effective_price_of vs)).
Proof.
  intros Hne.
  assert (forall session productData store status p,
             ProductData.variants productData = Some vs ->
             POST gen session (Some productData) store = Json status p ->
             is_min (NewProduct.price p) (map effective_price_of vs)) as Hpost.
  { intros session productData store status p Hvs H.
    apply POST_json in H. cbv zeta in H. rewrite Hvs in H.
    destruct H as (_ & _ & _ & _ & _ & _ & (topPrice & _ & Hprice) & _).
    destruct (minPrice_nonempty gen (fun z => z) vs topPrice Hne)
      as (m & Hm & Hmin).
    now rewrite Hprice, Hm. }
  assert (forall updateData,
             UpdateData.variants updateData = Some vs ->
             exists m,
               UpdateData.price (aggregateUpdate gen updateData) = Some m
               /\ is_min m (map effective_price_of vs)) as Hput.
  { intros updateData Hvs. unfold aggregateUpdate. rewrite Hvs. simpl.
    now apply minPrice_nonempty. }
  split; [|split; [|split; [|split; [|split]]]].
  - intros session productData store status p Hvs H.
    pose proof (Hpost _ _ _ _ _ Hvs H) as Hmin.
    split; [exact Hmin|]. intros v Hv Hall.
    now apply (least_effective_price vs).
  - intros session id updateData store status i u Hvs H.
    apply PUT_json in H. destruct H as (_ & _ & _ & _ & ->).
    destruct (Hput updateData Hvs) as (m & Hm & Hmin).
    exists m. split; [exact Hm|]. split; [exact Hmin|].
    intros v Hv Hall. now apply (least_effective_price vs).
  - intros session productData store f Hvs. unfold post_price, POST.
    destruct (unauthorized session); [reflexivity|].
    cbn [JS.bind JS.try_catch with_variants ProductData.price ProductData.name
         ProductData.description ProductData.variants].
    rewrite Hvs.
    destruct (ProductData.price productData) as [topPrice|]; [|reflexivity].
    destruct (negb (opt_str_truthy (ProductData.name productData))
              || negb (opt_str_truthy (ProductData.description productData)));
      [reflexivity|].
    destruct (connectDB store) as [[]|e]; [|reflexivity].
    destruct (save store) as [[]|e]; [|reflexivity].
    cbn [JS.bind JS.try_catch NewProduct.price].
    now rewrite minPrice_revisible.
  - intros session id updateData store f Hvs. unfold put_price, PUT.
    destruct (unauthorized session); [reflexivity|].
    cbn [JS.bind JS.try_catch fst snd].
    destruct id as [[|c rest]|]; try reflexivity.
    destruct (connectDB store) as [[]|e]; [|reflexivity].
    destruct (findByIdAndUpdate store) as [[|]|e]; try reflexivity.
    cbn [JS.bind JS.try_catch]. unfold aggregateUpdate. rewrite Hvs. simpl.
    now rewrite minPrice_revisible.
  - intros productData store Hvs Hcomplete Hc Hsave.
    destruct (POST_created gen productData store Hcomplete Hc Hsave)
      as (p & Hp).
    exists (NewProduct.price p). unfold post_price. rewrite Hp.
    split; [reflexivity|]. exact (Hpost _ _ _ _ _ Hvs Hp).
  - intros c i updateData store Hvs Hc Hf.
    destruct (Hput updateData Hvs) as (m & Hm & Hmin).
    exists m. unfold put_price. rewrite (PUT_updated gen c i _ _ Hc Hf).
    split; [exact Hm | exact Hmin].
Qed.

(** A hidden variant at 50 beside a visible one at 100: the created product
    and the update both carry the price 50. *)
Lemma price_over_all_variants_witness :
  post_price (fun _ => 0) (Some "admin"%string)
    (product_data 999 (Some [raw 1 100 0 5 true; raw 2 50 0 5 false]))
    store_ok
  = Some 50
  /\ put_price (fun _ => 0) (Some "admin"%string) (Some "p1"%string)
       (update_data None (Some [raw 1 100 0 5 true; raw 2 50 0 5 false]))
       store_ok
     = Some 50
  /\ exists m,
       post_price (fun _ => 0) (Some "admin"%string)
         (product_data 999 (Some [raw 1 100 0 5 true; raw 2 50 0 5 false]))
         store_ok
       = Some m
       /\ is_min m (map effective_price_of
                        [raw 1 100 0 5 true; raw 2 50 0 5 false]).
Proof.
  split; [reflexivity|]. split; [reflexivity|].
  assert ([raw 1 100 0 5 true; raw 2 50 0 5 false] <> []) as Hne
    by discriminate.
  apply (proj1 (proj2 (proj2 (proj2 (proj2
           (price_over_all_variants (fun _ => 0)
              [raw 1 100 0 5 true; raw 2 50 0 5 false] Hne)))))
           (product_data 999 (Some [raw 1 100 0 5 true; raw 2 50 0 5 false]))
           store_ok).
  - reflexivity.
  - repeat split; eexists; try split; try reflexivity; discriminate.
  - reflexivity.
  - reflexivity.
Defined.

(** *** Listing *)

Lemma in_firstn {A : Type} (n : nat) (l : list A) (x : A) :
  In x (firstn n l) -> In x l.
Proof.
  revert l. induction n as [|n IH]; intros [|y l]; simpl; try tauto.
  intros [H|H]; [now left | right; now apply IH].
Qed.

Lemma in_skipn {A : Type} (n : nat) (l : list A) (x : A) :
  In x (skipn n l) -> In x l.
Proof.
  revert l. induction n as [|n IH]; intros [|y l]; simpl; try tauto.
  intros H. right. now apply IH.
Qed.

Lemma in_insert_sorted (before : Doc.t -> Doc.t -> bool) (d x : Doc.t)
  (l : list Doc.t) :
  In x (insert_sorted before d l) -> x = d \/ In x l.
Proof.
  induction l as [|y l IH]; simpl.
  - intros [H|[]]. now left.
  - destruct (before d y); simpl.
    + intros [H|H]; [now left | now right].
    + intros [H|H]; [right; now left|].
      destruct (IH H); [now left | right; now right].
Qed.

Lemma in_sort_docs (before : Doc.t -> Doc.t -> bool) (x : Doc.t)
  (l : list Doc.t) :
  In x (sort_docs before l) -> In x l.
Proof.
  unfold sort_docs. induction l as [|y l IH]; simpl; [tauto|].
  intros H. apply in_insert_sorted in H. destruct H; [now left|].
  right. now apply IH.
Qed.

(** Every listed product passes the filter of the request. *)
Lemma listed_matches (eng : Engine) (catalog : list Doc.t) (params : ListParams) (d : Doc.t) :
  In d (r_items (GET eng catalog params)) ->
  In d catalog /\ filter_matches eng (buildFilter params) d = true.
Proof.
  unfold GET. simpl. intros H.
  apply in_firstn, in_skipn, in_sort_docs in H. now apply filter_In in H.
Qed.

(** A non-zero [maxPrice] replaces the [$or] of the text query. *)
Lemma max_price_replaces_or (params : ListParams) (m : Z) :
  maxPrice params = Some m -> m <> 0 ->
  or_ (buildFilter params)
  = Some [SalePriceGtLte 0 m;
          And [Or [SalePriceEq 0; SalePriceAbsent]; PriceLte m]].
Proof.
  intros Hm Hnz. unfold buildFilter. rewrite Hm.
  apply JSFacts.truthy_true in Hnz. now rewrite Hnz.
Qed.

(** The price part of the listing holds: with a non-zero [maxPrice], every
    listed product has its discounted price, when there is one below the
    base price, or else its base price, within [maxPrice]. *)
Lemma listed_within_max_price (eng : Engine) (catalog : list Doc.t) (params : ListParams)
  (m : Z) (d : Doc.t) :
  maxPrice params = Some m -> m <> 0 ->
  In d (r_items (GET eng catalog params)) -> price_within m d.
Proof.
  intros Hm Hnz Hin. apply listed_matches in Hin. destruct Hin as [_ Hf].
  unfold filter_matches in Hf. rewrite (max_price_replaces_or _ _ Hm Hnz) in Hf.
  apply andb_prop in Hf. destruct Hf as [Hf _].
  unfold price_within. simpl in Hf.
  destruct (Doc.salePrice d) as [s|]; simpl in Hf.
  - destruct (Z.ltb_spec 0 s); destruct (Z.ltb_spec s (Doc.price d));
      destruct (Z.leb_spec s m); destruct (Z.eqb_spec s 0);
      destruct (Z.leb_spec (Doc.price d) m);
      simpl in *; try discriminate; lia.
  - destruct (Z.leb_spec (Doc.price d) m); simpl in *; [lia | discriminate].
Qed.

(** C5, at the failing input. The request [q = "shampoo"], [maxPrice = 100]
    against a catalog holding "Tijera" (price 50) and "Shampoo Nutritivo"
    (price 500) lists "Tijera", whatever the store's regular expressions
    accept, and its name does not contain the query: the assignment of
    [filter.$or] for [maxPrice] has replaced the [$or] of the text query.
    With [maxPrice = 0] it is the price condition that is not applied. *)
Theorem max_price_drops_text_query :
  (forall eng,
      r_items (GET eng [doc 1 "Tijera" 50 (Some 50) (Some 3);
                        doc 2 "Shampoo Nutritivo" 500 (Some 500) (Some 3)]
                   (list_params "shampoo" (Some 100)))
      = [doc 1 "Tijera" 50 (Some 50) (Some 3)])
  /\ contains_ci "shampoo" (Doc.name (doc 1 "Tijera" 50 (Some 50) (Some 3))) = false
  /\ r_items (GET literal_engine
                  [doc 1 "Tijera" 50 (Some 50) (Some 3);
                   doc 2 "Shampoo Nutritivo" 500 (Some 500) (Some 3)]
                  (list_params "shampoo" (Some 0)))
     = [doc 2 "Shampoo Nutritivo" 500 (Some 500) (Some 3)]
  /\ (forall eng,
        regex_i eng "shampoo" "Shampoo Nutritivo" = true ->
        regex_i eng "shampoo" "Tijera" = false ->
        r_items (GET eng [doc 1 "Tijera" 50 (Some 50) (Some 3);
                          doc 2 "Shampoo Nutritivo" 500 (Some 500) (Some 3)]
                     (list_params "shampoo" (Some 0)))
        = [doc 2 "Shampoo Nutritivo" 500 (Some 500) (Some 3)]).
Proof.
  split; [|split; [|split]].
  - intros eng. vm_compute. reflexivity.
  - vm_compute. reflexivity.
  - vm_compute. reflexivity.
  - intros eng Hyes Hno. unfold GET. cbn [r_items].
    assert (filter (filter_matches eng (buildFilter (list_params "shampoo" (Some 0))))
              [doc 1 "Tijera" 50 (Some 50) (Some 3);
               doc 2 "Shampoo Nutritivo" 500 (Some 500) (Some 3)]
            = [doc 2 "Shampoo Nutritivo" 500 (Some 500) (Some 3)]) as ->.
    { cbn -[regex_i]. unfold filter_matches, doc.
      cbn [or_ category matches existsb Doc.name]. rewrite Hyes, Hno.
      reflexivity. }
    reflexivity.
Qed.




End CatalogProps.

(** ** The product detail view *)

Module ProductPageProps.
Import ProductPage ProductPageSpec.

Lemma line_id_inj (p : IProduct) (v1 v2 : Catalog.IVariant) :
  line_id p v1 = line_id p v2 -> Catalog.variant_id v1 = Catalog.variant_id v2.
Proof.
  unfold line_id. intros H.
  apply JSFacts.append_inj_l in H. apply (JSFacts.append_inj_l "-") in H.
  now apply JSFacts.show_inj.
Qed.

(** C8. With a product and a selected variant: a variant stock of zero
    reports the out-of-stock condition and the cart store's add is not
    called; otherwise a quantity above the stock reports the
    insufficient-stock condition and add is not called; otherwise add is
    called once, with the line id made of the product id and the variant id,
    the variant stock and the quantity. Two variants of a product with
    different variant ids have different line ids. *)
Theorem add_to_cart_gesture (p : IProduct) (vs : list Catalog.IVariant)
  (selectedVariant : nat) (v : Catalog.IVariant) (quantity : Z) :
  variants p = Some vs -> nth_error vs selectedVariant = Some v ->
  let effects := handleAddToCart (Some p) selectedVariant quantity in
  (Catalog.stock_total v = 0 ->
     effects = [ToastError "Producto agotado"] /\ add_calls effects = []) /\
  (Catalog.stock_total v <> 0 -> Catalog.stock_total v < quantity ->
     effects = [ToastError ("Solo hay " ++ JS.show (Catalog.stock_total v)
                            ++ " unidades disponibles")%string]
     /\ add_calls effects = []) /\
  (Catalog.stock_total v <> 0 -> quantity <= Catalog.stock_total v ->
     exists item,
       add_calls effects = [(item, quantity)]
       /\ Cart.id item = line_id p v
       /\ Cart.stock item = Some (Catalog.stock_total v)) /\
  (forall v', Catalog.variant_id v <> Catalog.variant_id v' ->
              line_id p v <> line_id p v').
Proof.
  intros Hvs Hnth. unfold handleAddToCart, selectedVariantData.
  rewrite Hvs, Hnth. unfold availableStock. rewrite JSFacts.or_else_zero.
  cbv zeta. split; [|split; [|split]].
  - intros ->. split; reflexivity.
  - intros Hnz Hgt.
    destruct (Z.eqb_spec (Catalog.stock_total v) 0); [contradiction|].
    destruct (Z.gtb_spec quantity (Catalog.stock_total v)); [|lia].
    split; reflexivity.
  - intros Hnz Hle.
    destruct (Z.eqb_spec (Catalog.stock_total v) 0); [contradiction|].
    destruct (Z.gtb_spec quantity (Catalog.stock_total v)); [lia|].
    eexists. simpl. repeat split.
  - intros v' Hne Heq. apply Hne. now apply (line_id_inj p).
Qed.

Lemma add_to_cart_gesture_witness :
  add_calls (handleAddToCart (Some (product [variant 7 0; variant 8 5])) 1 2)
  = [({| Cart.id := "p1-8"; Cart.name := "Tinte - Color 2"; Cart.price := 100;
         Cart.image := "/placeholder.svg"; Cart.stock := Some 5;
         Cart.quantity := None |}, 2)]
  /\ line_id (product [variant 7 0; variant 8 5]) (variant 8 5)
     <> line_id (product [variant 7 0; variant 8 5]) (variant 7 0).
Proof.
  destruct (add_to_cart_gesture (product [variant 7 0; variant 8 5])
              [variant 7 0; variant 8 5] 1 (variant 8 5) 2 eq_refl eq_refl)
    as (_ & _ & Hadd & Hdistinct).
  split.
  - destruct Hadd as (item & Hcalls & _); [simpl; lia | simpl; lia |].
    reflexivity.
  - apply Hdistinct. simpl. lia.
Defined.

End ProductPageProps.

(** ** Further properties of the cart *)

Module CartMore.
Import Cart CartSpec CartFacts CartMoreSpec.

Lemma find_item_remove_other (i j : string) (l : list CartItem) :
  j <> i -> find_item j (remove_id i l) = find_item j l.
Proof.
  intros Hji. unfold find_item, remove_id.
  induction l as [|x l IH]; simpl; [reflexivity|].
  destruct (String.eqb_spec (id x) i) as [E|E]; simpl.
  - destruct (String.eqb_spec (id x) j); [congruence | exact IH].
  - destruct (id x =? j)%string; [reflexivity | exact IH].
Qed.

Lemma remove_id_absent (i : string) (l : list CartItem) :
  find_item i l = None -> remove_id i l = l.
Proof.
  unfold find_item, remove_id. induction l as [|x l IH]; simpl; [reflexivity|].
  destruct (id x =? i)%string; simpl; [discriminate|].
  intros H. now rewrite IH.
Qed.

Lemma map_quantity_absent (i : string) (n : Z) (l : list CartItem) :
  ~ In i (map id l) -> map_quantity i n l = l.
Proof.
  unfold map_quantity. induction l as [|x l IH]; simpl; [reflexivity|].
  intros H. destruct (String.eqb_spec (id x) i) as [E|E]; [tauto|].
  rewrite IH by tauto. reflexivity.
Qed.

Lemma map_quantity_same_but_quantity (i : string) (n : Z) (l : list CartItem) :
  Forall2 same_but_quantity l (map_quantity i n l).
Proof.
  unfold map_quantity. induction l as [|x l IH]; simpl; constructor; [|exact IH].
  destruct (id x =? i)%string; repeat split.
Qed.

Lemma same_but_quantity_refl (l : list CartItem) : Forall2 same_but_quantity l l.
Proof. induction l; constructor; [repeat split | assumption]. Qed.

(** X1. RemoveItem leaves no line of the removed id, leaves the lines of
    every other id as they were, and returns the state as it was when the id
    is not in the cart. *)
Theorem remove_item_effect (state : CartState) (i : string) :
  let r := cartReducer state (REMOVE_ITEM i) in
  find_item i (items r) = None
  /\ (forall j, j <> i -> find_item j (items r) = find_item j (items state))
  /\ (find_item i (items state) = None -> r = state).
Proof.
  simpl. split; [apply find_item_remove|]. split.
  - intros j Hj. now apply find_item_remove_other.
  - intros H. rewrite remove_id_absent by assumption. now destruct state.
Qed.

Lemma remove_item_effect_witness :
  find_item "b"
    (items (cartReducer {| items := [line "a" 1 None; line "b" 2 None] |}
                        (REMOVE_ITEM "a")))
  = Some (line "b" 2 None)
  /\ cartReducer {| items := [line "b" 2 None] |} (REMOVE_ITEM "a")
     = {| items := [line "b" 2 None] |}.
Proof.
  split.
  - destruct (remove_item_effect
                {| items := [line "a" 1 None; line "b" 2 None] |} "a")
      as (_ & H & _).
    rewrite H; [reflexivity | discriminate].
  - destruct (remove_item_effect {| items := [line "b" 2 None] |} "a")
      as (_ & _ & H).
    apply H. reflexivity.
Defined.

(** X2. The reducer never creates a second line for an id: on a cart with
    unique line ids, every action yields a cart with unique line ids, for
    SetCart provided the given list has unique ids. *)
Theorem reducer_keeps_unique_ids (state : CartState) (a : CartAction) :
  unique_ids state ->
  (forall l, a = SET_CART l -> NoDup (map id l)) ->
  unique_ids (cartReducer state a).
Proof.
  intros Hu Hset. unfold unique_ids.
  destruct a as [payload q|i|i n| |l]; simpl.
  - destruct (find_item (id payload) (items state)) as [e|] eqn:Hfind.
    + destruct (over_stock (stock e) (JS.nullish (quantity e) 0 + q));
        [exact Hu|]. simpl. now rewrite map_quantity_ids.
    + destruct (over_stock (stock payload) q); [exact Hu|]. simpl.
      rewrite map_app. simpl.
      apply NoDup_app; [exact Hu | repeat constructor; intros [] |].
      intros x Hx [Hy|[]]. subst x. exact (find_item_none _ _ Hfind Hx).
  - now apply nodup_ids_remove.
  - destruct (n <=? 0); simpl; [now apply nodup_ids_remove|].
    destruct (find_item i (items state)) as [e|]; [|exact Hu].
    destruct (n <? JS.nullish (quantity e) 0); simpl;
      [now rewrite map_quantity_ids|].
    destruct (JS.opt_truthy (stock e)
              && (JS.nullish (quantity e) 0 <? JS.nullish (stock e) 0)); simpl;
      [now rewrite map_quantity_ids | exact Hu].
  - constructor.
  - now apply Hset.
Qed.

Lemma reducer_keeps_unique_ids_witness :
  unique_ids
    (cartReducer {| items := [line "a" 1 (Some 3)] |}
                 (ADD_ITEM (line "b" 0 None) 7)).
Proof.
  apply reducer_keeps_unique_ids.
  - unfold unique_ids. simpl. repeat constructor. intros [].
  - intros l Hl. discriminate Hl.
Defined.

(** X3. AddItem and UpdateQuantity to a positive quantity keep every line
    in its place and change at most its quantity; AddItem adds at most one
    line, at the end, and only for an id that is not in the cart. *)
Theorem add_update_keep_lines (state : CartState) :
  (forall payload q,
      exists kept added,
        items (cartReducer state (ADD_ITEM payload q)) = kept ++ added
        /\ Forall2 same_but_quantity (items state) kept
        /\ (added = []
            \/ (find_item (id payload) (items state) = None
                /\ added = [with_quantity payload q]))) /\
  (forall i n,
      0 < n ->
      Forall2 same_but_quantity (items state)
              (items (cartReducer state (UPDATE_QUANTITY i n)))).
Proof.
  split.
  - intros payload q. simpl.
    destruct (find_item (id payload) (items state)) as [e|] eqn:Hfind.
    + destruct (over_stock (stock e) (JS.nullish (quantity e) 0 + q)).
      * exists (items state), []. rewrite app_nil_r.
        split; [reflexivity|]. split; [apply same_but_quantity_refl | now left].
      * exists (map_quantity (id payload) (JS.nullish (quantity e) 0 + q)
                             (items state)), [].
        rewrite app_nil_r. split; [reflexivity|].
        split; [apply map_quantity_same_but_quantity | now left].
    + destruct (over_stock (stock payload) q).
      * exists (items state), []. rewrite app_nil_r.
        split; [reflexivity|]. split; [apply same_but_quantity_refl | now left].
      * exists (items state), [with_quantity payload q].
        split; [reflexivity|]. split; [apply same_but_quantity_refl|].
        right. now split.
  - intros i n Hn. simpl. destruct (Z.leb_spec n 0); [lia|].
    destruct (find_item i (items state)) as [e|];
      [|apply same_but_quantity_refl].
    destruct (n <? JS.nullish (quantity e) 0); simpl;
      [apply map_quantity_same_but_quantity|].
    destruct (JS.opt_truthy (stock e)
              && (JS.nullish (quantity e) 0 <? JS.nullish (stock e) 0)); simpl;
      [apply map_quantity_same_but_quantity | apply same_but_quantity_refl].
Qed.

Lemma add_update_keep_lines_witness :
  Forall2 same_but_quantity
    [line "a" 3 (Some 3); line "b" 2 None]
    (items (cartReducer {| items := [line "a" 3 (Some 3); line "b" 2 None] |}
                        (UPDATE_QUANTITY "a" 1))).
Proof.
  apply (proj2 (add_update_keep_lines
                  {| items := [line "a" 3 (Some 3); line "b" 2 None] |})).
  lia.
Defined.

Lemma exact_some (n m : Z) : JS.exact n = Some m -> m = n.
Proof.
  unfold JS.exact. destruct (JS.safe_integer n); [|discriminate].
  intros H. now inversion H.
Qed.

Lemma exact_in_range (n : Z) : - 2 ^ 53 <= n <= 2 ^ 53 -> JS.exact n = Some n.
Proof.
  intros H. unfold JS.exact, JS.safe_integer.
  destruct (Z.leb_spec (- 2 ^ 53) n); [|lia].
  destruct (Z.leb_spec n (2 ^ 53)); [reflexivity | lia].
Qed.

Lemma add_line_price_some (total : option Z) (item : CartItem) (t' : Z) :
  add_line_price total item = Some t' ->
  exists t, total = Some t /\ t' = t + price item * qty item.
Proof.
  unfold add_line_price, qty. destruct total as [t|]; [|discriminate].
  destruct (JS.exact (price item)) as [p|] eqn:Hp; [|discriminate].
  destruct (JS.exact (JS.nullish (quantity item) 0)) as [k|] eqn:Hk;
    [|discriminate].
  destruct (JS.exact (p * k)) as [m|] eqn:Hm; [|discriminate].
  intros H. apply exact_some in Hp, Hk, Hm, H. subst.
  exists t. split; reflexivity.
Qed.

Lemma fold_total (l : list CartItem) (acc : option Z) (t : Z) :
  fold_left add_line_price l acc = Some t ->
  exists a, acc = Some a /\ t = a + sum_lines l.
Proof.
  revert acc. induction l as [|x l IH]; intros acc H; simpl in *.
  - exists t. split; [exact H | lia].
  - destruct (IH _ H) as (a' & Ha' & Ht).
    destruct (add_line_price_some _ _ _ Ha') as (a & Ha & Hstep).
    exists a. split; [exact Ha | lia].
Qed.

(** When [getTotalPrice] is within the exact range, it is the sum of price
    times quantity over the lines. *)
Lemma getTotalPrice_sum (state : CartState) (t : Z) :
  getTotalPrice state = Some t -> t = sum_lines (items state).
Proof.
  unfold getTotalPrice. intros H. apply fold_total in H.
  destruct H as (a & Ha & Ht). inversion Ha; subst. lia.
Qed.

Lemma sum_lines_nonneg (l : list CartItem) :
  Forall exact_line l -> 0 <= sum_lines l.
Proof.
  induction 1 as [|x l [Hp Hq] _ IH]; simpl; [lia | nia].
Qed.

(** Non-negative exact prices and quantities with a sum of at most 2^53
    keep the whole reduction within the exact range. *)
Lemma fold_total_defined (l : list CartItem) (a : Z) :
  Forall exact_line l -> 0 <= a -> a + sum_lines l <= 2 ^ 53 ->
  fold_left add_line_price l (Some a) = Some (a + sum_lines l).
Proof.
  intros Hall. revert a. induction Hall as [|x l [Hp Hq] Hl IH];
    intros a Ha Hsum.
  - simpl. f_equal. lia.
  - change (sum_lines (x :: l)) with (price x * qty x + sum_lines l) in *.
    pose proof (sum_lines_nonneg l Hl) as Hrest.
    assert (0 <= price x * qty x) as Hprod by nia.
    assert (add_line_price (Some a) x = Some (a + price x * qty x)) as Hstep.
    { unfold add_line_price. fold (qty x).
      rewrite (exact_in_range (price x)), (exact_in_range (qty x)) by lia.
      rewrite (exact_in_range (price x * qty x)) by lia.
      now rewrite (exact_in_range (a + price x * qty x)) by lia. }
    cbn [fold_left]. rewrite Hstep, IH by lia. f_equal. lia.
Qed.

Lemma sum_lines_app (l1 l2 : list CartItem) :
  sum_lines (l1 ++ l2) = sum_lines l1 + sum_lines l2.
Proof. induction l1 as [|x l1 IH]; simpl; [reflexivity | rewrite IH; lia]. Qed.

Lemma sum_lines_map_quantity (i : string) (n : Z) (l : list CartItem)
  (e : CartItem) :
  NoDup (map id l) -> find_item i l = Some e ->
  sum_lines (map_quantity i n l) = sum_lines l + price e * (n - qty e).
Proof.
  induction l as [|x l IH]; intros Hnd Hfind; [discriminate|].
  inversion Hnd as [|? ? Hnotin Hnd']; subst.
  unfold find_item in Hfind. simpl in Hfind. cbn [map_quantity map sum_lines fold_right].
  destruct (String.eqb_spec (id x) i) as [E|E].
  - inversion Hfind; subst e. subst i.
    fold (map_quantity (id x) n l). rewrite map_quantity_absent by assumption.
    fold (sum_lines l). unfold qty at 1. simpl. lia.
  - fold (map_quantity i n l). fold (sum_lines (map_quantity i n l)).
    fold (sum_lines l). rewrite (IH Hnd' Hfind). lia.
Qed.

Lemma getTotalPrice_defined (state : CartState) :
  Forall exact_line (items state) -> sum_lines (items state) <= 2 ^ 53 ->
  getTotalPrice state = Some (sum_lines (items state)).
Proof.
  intros Hall Hsum. unfold getTotalPrice.
  rewrite fold_total_defined; [f_equal; lia | exact Hall | lia | lia].
Qed.

Lemma exact_lines_map_quantity (i : string) (n : Z) (l : list CartItem) :
  Forall exact_line l -> 0 <= n <= 2 ^ 53 ->
  Forall exact_line (map_quantity i n l).
Proof.
  intros Hall Hn. unfold map_quantity.
  induction Hall as [|x l Hx _ IH]; simpl; constructor; [|exact IH].
  destruct (id x =? i)%string; [|exact Hx].
  destruct Hx as [Hp _]. split; [exact Hp | exact Hn].
Qed.

(** X4. On a cart with unique line ids, an AddItem is either rejected (the
    state is returned as it was) or raises the total price by the quantity
    added times the unit price of the line: the price of the existing line,
    not that of the payload, and the payload's price for a fresh line. This
    is for non-negative integer prices and quantities of at most 2^53 with a
    new total of at most 2^53, where the source computes without
    rounding. *)
Theorem add_item_total (state : CartState) (payload : CartItem) (q : Z) :
  unique_ids state ->
  Forall exact_line (items state) -> 0 <= price payload <= 2 ^ 53 ->
  0 <= q -> newQuantity state payload q <= 2 ^ 53 ->
  sum_lines (items state) + q * unit_price_of state payload <= 2 ^ 53 ->
  exists t,
    getTotalPrice state = Some t
    /\ (cartReducer state (ADD_ITEM payload q) = state
        \/ getTotalPrice (cartReducer state (ADD_ITEM payload q))
           = Some (t + q * unit_price_of state payload)).
Proof.
  intros Hu Hall Hpay Hq Hnew Hsum.
  pose proof (sum_lines_nonneg _ Hall) as Hnonneg.
  exists (sum_lines (items state)).
  assert (0 <= q * unit_price_of state payload) as Hadd.
  { unfold unit_price_of.
    destruct (find_item (id payload) (items state)) as [e|] eqn:Hfind; [|nia].
    apply find_item_some in Hfind. destruct Hfind as [He _].
    rewrite Forall_forall in Hall. destruct (Hall e He) as [Hp _]. nia. }
  split; [apply getTotalPrice_defined; [exact Hall | lia]|].
  unfold unit_price_of, newQuantity in *. simpl.
  destruct (find_item (id payload) (items state)) as [e|] eqn:Hfind.
  - destruct (over_stock (stock e) (JS.nullish (quantity e) 0 + q));
      [now left|]. right.
    assert (0 <= qty e) as Hqe.
    { apply find_item_some in Hfind. destruct Hfind as [He _].
      rewrite Forall_forall in Hall. destruct (Hall e He) as [_ Hk]. lia. }
    fold (qty e).
    rewrite getTotalPrice_defined; simpl.
    + f_equal. rewrite (sum_lines_map_quantity _ _ _ e Hu Hfind). lia.
    + apply exact_lines_map_quantity; [exact Hall | lia].
    + rewrite (sum_lines_map_quantity _ _ _ e Hu Hfind). lia.
  - destruct (over_stock (stock payload) q); [now left|]. right.
    rewrite getTotalPrice_defined; simpl.
    + f_equal. rewrite sum_lines_app. simpl. unfold qty. simpl. lia.
    + apply Forall_app. split; [exact Hall|].
      repeat constructor; unfold qty; simpl; lia.
    + rewrite sum_lines_app. simpl. unfold qty. simpl. lia.
Qed.

Lemma add_item_total_witness :
  exists t,
    getTotalPrice {| items := [line "a" 1 (Some 3)] |} = Some t
    /\ ({| items := [line "a" 3 (Some 3)] |}
        = {| items := [line "a" 1 (Some 3)] |}
        \/ getTotalPrice {| items := [line "a" 3 (Some 3)] |}
           = Some (t + 2 * 10)).
Proof.
  apply (add_item_total
           {| items := [line "a" 1 (Some 3)] |}
           {| id := "a"; name := "Tinte"; price := 99;
              image := EmptyString; stock := Some 3; quantity := None |} 2).
  - unfold unique_ids. simpl. repeat constructor. intros [].
  - repeat constructor; unfold qty; simpl; lia.
  - simpl. lia.
  - lia.
  - vm_compute. discriminate.
  - vm_compute. discriminate.
Defined.

Lemma api_total_sum_lines (apiItems : list ApiCart.Item) :
  sum_lines (transformApiCartToCartItems apiItems) = api_total apiItems.
Proof.
  induction apiItems as [|a rest IH]; simpl; [reflexivity|].
  rewrite IH. reflexivity.
Qed.

(** X5. For a remote cart whose unit prices and quantities are
    non-negative integers of at most 2^53 with a total of at most 2^53 (so
    that the source computes without rounding), the total price of the cart
    set from it is the sum of unit price times quantity over the remote
    items; the total of a cleared cart is zero. *)
Theorem hydrated_total (state : CartState) (apiItems : list ApiCart.Item) :
  Forall exact_item apiItems -> api_total apiItems <= 2 ^ 53 ->
  getTotalPrice (setCart state (transformApiCartToCartItems apiItems))
  = Some (api_total apiItems)
  /\ getTotalPrice (clearCart state) = Some 0.
Proof.
  intros Hall Hsum. split; [|reflexivity].
  unfold getTotalPrice, setCart. simpl.
  rewrite <- api_total_sum_lines in *.
  rewrite fold_total_defined; [f_equal; lia | | lia | lia].
  clear Hsum. induction Hall as [|a rest Ha _ IH]; simpl; constructor;
    [exact Ha | exact IH].
Qed.

Lemma hydrated_total_witness :
  getTotalPrice
    (setCart initialState
       (transformApiCartToCartItems
          [{| ApiCart.id := "c1"; ApiCart.title := "Tinte";
              ApiCart.unit_price := 10; ApiCart.quantity := 2;
              ApiCart.image := None |};
           {| ApiCart.id := "c2"; ApiCart.title := "Tijera";
              ApiCart.unit_price := 50; ApiCart.quantity := 1;
              ApiCart.image := None |}]))
  = Some 70.
Proof.
  apply (hydrated_total initialState
           [{| ApiCart.id := "c1"; ApiCart.title := "Tinte";
               ApiCart.unit_price := 10; ApiCart.quantity := 2;
               ApiCart.image := None |};
            {| ApiCart.id := "c2"; ApiCart.title := "Tijera";
               ApiCart.unit_price := 50; ApiCart.quantity := 1;
               ApiCart.image := None |}]).
  - repeat constructor; simpl; lia.
  - simpl. lia.
Defined.

(** X6. Raising a line by at most one through UpdateQuantity keeps it
    within its stock: for a line with a non-zero stock [S] and a quantity of
    at most [S], UpdateQuantity to at most the current quantity plus one
    leaves the line, when it is still there, with stock [S] and a quantity of
    at most [S]. *)
Theorem update_by_one_within_stock (state : CartState) (i : string) (n S : Z)
  (e : CartItem) :
  find_item i (items state) = Some e -> stock e = Some S -> S <> 0 ->
  qty e <= S -> n <= qty e + 1 ->
  line_within i S (cartReducer state (UPDATE_QUANTITY i n)).
Proof.
  intros Hfind Hst HS Hq Hn e'. unfold qty in *. simpl.
  destruct (Z.leb_spec n 0).
  - simpl. rewrite find_item_remove. discriminate.
  - rewrite Hfind.
    destruct (Z.ltb_spec n (JS.nullish (quantity e) 0)).
    + simpl. rewrite find_item_map_same, Hfind. simpl.
      intros H'. inversion H'; subst e'. simpl. split; [assumption | lia].
    + rewrite Hst. simpl. apply JSFacts.truthy_true in HS. rewrite HS. simpl.
      destruct (Z.ltb_spec (JS.nullish (quantity e) 0) S); simpl.
      * rewrite find_item_map_same, Hfind. simpl.
        intros H'. inversion H'; subst e'. simpl. split; [assumption | lia].
      * rewrite Hfind. intros H'. inversion H'; subst e'.
        split; [assumption | lia].
Qed.

Lemma update_by_one_within_stock_witness :
  line_within "a" 3
    (cartReducer {| items := [line "a" 2 (Some 3)] |} (UPDATE_QUANTITY "a" 3)).
Proof.
  apply (update_by_one_within_stock _ "a" 3 3 (line "a" 2 (Some 3)));
    try reflexivity; unfold qty; simpl; lia.
Defined.

(** X7. The remote cart fetch yields lines only from a response of status
    200 or 404, on the client, whose body has a non-empty [products] array;
    the lines are then the transform of that array. *)
Theorem remote_cart_nonempty (window_defined : bool) (outcome : FetchOutcome) :
  getCartFromApi window_defined outcome <> [] ->
  window_defined = true
  /\ exists status e es,
       (status = 200 \/ status = 404)
       /\ outcome = Response status (Some (BodyProducts (ProductArray (e :: es))))
       /\ getCartFromApi window_defined outcome
          = transformApiCartToCartItems (e :: es).
Proof.
  unfold getCartFromApi. destruct window_defined; simpl; [|congruence].
  destruct outcome as [|status [body|]]; simpl; try congruence.
  destruct (Z.eqb_spec status 200) as [E200|E200];
    [|destruct (Z.eqb_spec status 404) as [E404|E404]]; simpl; try congruence;
    (destruct body as [| |[t|[|e es]]]; simpl; try congruence;
     intros _; split; [reflexivity|];
     exists status, e, es; subst; auto).
Qed.

Lemma remote_cart_nonempty_witness :
  exists status e es,
    (status = 200 \/ status = 404)
    /\ Response 200
         (Some (BodyProducts
                  (ProductArray
                     [{| ApiCart.id := "c1"; ApiCart.title := "Tinte";
                         ApiCart.unit_price := 10; ApiCart.quantity := 2;
                         ApiCart.image := None |}])))
       = Response status (Some (BodyProducts (ProductArray (e :: es))))
    /\ getCartFromApi true
         (Response 200
            (Some (BodyProducts
                     (ProductArray
                        [{| ApiCart.id := "c1"; ApiCart.title := "Tinte";
                            ApiCart.unit_price := 10; ApiCart.quantity := 2;
                            ApiCart.image := None |}]))))
       = transformApiCartToCartItems (e :: es).
Proof.
  apply (remote_cart_nonempty true
           (Response 200
              (Some (BodyProducts
                       (ProductArray
                          [{| ApiCart.id := "c1"; ApiCart.title := "Tinte";
                              ApiCart.unit_price := 10; ApiCart.quantity := 2;
                              ApiCart.image := None |}]))))).
  vm_compute. discriminate.
Defined.

Lemma remove_id_app (i : string) (l1 l2 : list CartItem) :
  remove_id i (l1 ++ l2) = remove_id i l1 ++ remove_id i l2.
Proof. unfold remove_id. apply filter_app. Qed.

(** X22. Adding a line for an id that is not in the cart and removing that
    id again gives back the cart as it was, whether the add was applied or
    rejected. *)
Theorem add_then_remove (state : CartState) (payload : CartItem) (q : Z) :
  find_item (id payload) (items state) = None ->
  cartReducer (cartReducer state (ADD_ITEM payload q)) (REMOVE_ITEM (id payload))
  = state.
Proof.
  intros Hfind. unfold cartReducer at 2. rewrite Hfind.
  destruct (over_stock (stock payload) q); simpl.
  - rewrite remove_id_absent by assumption. now destruct state.
  - rewrite remove_id_app, remove_id_absent by assumption.
    unfold remove_id. simpl. rewrite String.eqb_refl. simpl.
    rewrite app_nil_r. now destruct state.
Qed.

Lemma add_then_remove_witness :
  cartReducer
    (cartReducer {| items := [line "a" 1 None] |} (ADD_ITEM (line "b" 0 (Some 9)) 4))
    (REMOVE_ITEM "b")
  = {| items := [line "a" 1 None] |}.
Proof.
  apply (add_then_remove {| items := [line "a" 1 None] |}
                         (line "b" 0 (Some 9)) 4).
  reflexivity.
Defined.

Lemma find_item_absent (i : string) (l : list CartItem) :
  ~ In i (map id l) -> find_item i l = None.
Proof.
  unfold find_item. induction l as [|x l IH]; simpl; [reflexivity|].
  intros H. destruct (String.eqb_spec (id x) i); [tauto|]. apply IH. tauto.
Qed.

Lemma sum_lines_remove (i : string) (l : list CartItem) (e : CartItem) :
  NoDup (map id l) -> find_item i l = Some e ->
  sum_lines (remove_id i l) = sum_lines l - price e * qty e.
Proof.
  induction l as [|x l IH]; intros Hnd Hfind; [discriminate|].
  inversion Hnd as [|? ? Hnotin Hnd']; subst.
  unfold find_item in Hfind. simpl in Hfind.
  unfold remove_id. cbn [filter]. fold (remove_id i l).
  destruct (String.eqb_spec (id x) i) as [E|E]; cbn [negb].
  - inversion Hfind; subst e. subst i.
    rewrite remove_id_absent by now apply find_item_absent.
    simpl. lia.
  - cbn [sum_lines fold_right]. fold (sum_lines (remove_id i l)).
    fold (sum_lines l). rewrite (IH Hnd' Hfind). lia.
Qed.

(** X23. On a cart with unique line ids, removing a line lowers the total
    price by the price of that line times its quantity. This is for
    non-negative integer prices and quantities of at most 2^53 with a total
    of at most 2^53, where the source computes without rounding. *)
Theorem remove_item_total (state : CartState) (i : string) (e : CartItem) :
  unique_ids state -> find_item i (items state) = Some e ->
  Forall exact_line (items state) -> sum_lines (items state) <= 2 ^ 53 ->
  exists t,
    getTotalPrice state = Some t
    /\ getTotalPrice (cartReducer state (REMOVE_ITEM i))
       = Some (t - price e * qty e).
Proof.
  intros Hu Hfind Hall Hsum.
  exists (sum_lines (items state)).
  split; [now apply getTotalPrice_defined|].
  assert (0 <= price e * qty e) as Hline.
  { apply find_item_some in Hfind. destruct Hfind as [He _].
    rewrite Forall_forall in Hall. destruct (Hall e He). nia. }
  rewrite getTotalPrice_defined; simpl.
  - f_equal. now apply sum_lines_remove.
  - unfold remove_id. rewrite Forall_forall in *. intros x Hx.
    apply filter_In in Hx. now apply Hall.
  - rewrite (sum_lines_remove _ _ e Hu Hfind). lia.
Qed.

Lemma remove_item_total_witness :
  exists t,
    getTotalPrice {| items := [line "a" 1 None; line "b" 2 None] |} = Some t
    /\ getTotalPrice
         (cartReducer {| items := [line "a" 1 None; line "b" 2 None] |}
                      (REMOVE_ITEM "b"))
       = Some (t - 10 * 2).
Proof.
  apply (remove_item_total {| items := [line "a" 1 None; line "b" 2 None] |}
                           "b" (line "b" 2 None)).
  - unfold unique_ids. simpl. repeat constructor; simpl; intuition discriminate.
  - reflexivity.
  - repeat constructor; unfold qty; simpl; lia.
  - simpl. unfold qty. simpl. lia.
Defined.

End CartMore.

(** ** Further properties of the catalog route *)

Module CatalogMore.
Import Catalog CatalogSpec CatalogFacts CatalogMoreSpec.

Ltac zbool :=
  repeat match goal with
         | |- context [?a <? ?b] => destruct (Z.ltb_spec a b)
         | |- context [?a <=? ?b] => destruct (Z.leb_spec a b)
         | |- context [?a =? ?b] => destruct (Z.eqb_spec a b)
         | H : context [?a <? ?b] |- _ => destruct (Z.ltb_spec a b)
         | H : context [?a <=? ?b] |- _ => destruct (Z.leb_spec a b)
         | H : context [?a =? ?b] |- _ => destruct (Z.eqb_spec a b)
         end;
  simpl in *; try discriminate; try reflexivity; try lia.

Lemma length_insert_sorted (before : Doc.t -> Doc.t -> bool) (d : Doc.t)
  (l : list Doc.t) :
  List.length (insert_sorted before d l) = S (List.length l).
Proof.
  induction l as [|x l IH]; simpl; [reflexivity|].
  destruct (before d x); simpl; [reflexivity | now rewrite IH].
Qed.

Lemma length_sort_docs (before : Doc.t -> Doc.t -> bool) (l : list Doc.t) :
  List.length (sort_docs before l) = List.length l.
Proof.
  unfold sort_docs. induction l as [|x l IH]; simpl; [reflexivity|].
  now rewrite length_insert_sorted, IH.
Qed.

Lemma page_bounds (params : ListParams) :
  1 <= Z.max 1 (JS.nullish (page params) 1)
  /\ 1 <= Z.min 100 (Z.max 1 (JS.nullish (limit params) 12)) <= 100.
Proof. lia. Qed.

(** X8. Whatever the request asks for, the page number of a listing is at
    least 1, its limit lies between 1 and 100, it holds at most [limit]
    items, and its total counts the products of the catalog that match the
    filter, of which the items are a part. *)
Theorem list_bounds (eng : Engine) (catalog : list Doc.t) (params : ListParams) :
  let r := GET eng catalog params in
  1 <= r_page r
  /\ 1 <= r_limit r <= 100
  /\ Z.of_nat (List.length (r_items r)) <= r_limit r
  /\ Z.of_nat (List.length (r_items r)) <= r_total r
  /\ r_total r <= Z.of_nat (List.length catalog)
  /\ forall d, In d (r_items r) ->
               In d catalog /\ filter_matches eng (buildFilter params) d = true.
Proof.
  pose proof (page_bounds params) as [Hp Hl].
  unfold GET. cbn [r_page r_limit r_items r_total].
  split; [exact Hp|]. split; [exact Hl|].
  rewrite length_firstn, length_skipn, length_sort_docs.
  split; [lia|]. split; [lia|]. split.
  - pose proof (filter_length_le (filter_matches eng (buildFilter params)) catalog).
    lia.
  - intros d H. now apply (CatalogProps.listed_matches eng catalog params).
Qed.

Lemma ceil_div_bounds (a b : Z) :
  0 <= a -> 1 <= b ->
  a <= ceil_div a b * b /\ (ceil_div a b - 1) * b < a + (if a =? 0 then 1 else 0)
  /\ 0 <= ceil_div a b.
Proof.
  intros Ha Hb. unfold ceil_div.
  pose proof (Z.div_mod (a + b - 1) b ltac:(lia)) as Hdm.
  pose proof (Z.mod_pos_bound (a + b - 1) b ltac:(lia)) as Hmod.
  destruct (Z.eqb_spec a 0); repeat split; try nia.
Qed.

Lemma total_pages_facts (eng : Engine) (catalog : list Doc.t) (params : ListParams) :
  let r := GET eng catalog params in
  1 <= r_totalPages r
  /\ r_total r <= r_totalPages r * r_limit r
  /\ (0 < r_total r -> (r_totalPages r - 1) * r_limit r < r_total r)
  /\ (r_total r = 0 -> r_totalPages r = 1).
Proof.
  pose proof (page_bounds params) as [_ Hl].
  unfold GET. cbn [r_totalPages r_total r_limit].
  set (total := Z.of_nat (List.length
                            (filter (filter_matches eng (buildFilter params)) catalog))).
  set (lim := Z.min 100 (Z.max 1 (JS.nullish (limit params) 12))) in *.
  assert (0 <= total) as Ht by (unfold total; lia).
  destruct (ceil_div_bounds total lim Ht ltac:(lia)) as (H1 & H2 & H3).
  destruct (Z.eqb_spec total 0) as [E|E].
  - rewrite E in *. unfold ceil_div in *.
    assert ((0 + lim - 1) / lim = 0) as -> by (apply Z.div_small; lia).
    repeat split; lia.
  - repeat split; try nia.
Qed.

(** X9. The number of pages of a listing is at least 1 and is the least
    number of pages of [limit] items that hold all the matching products. *)
Theorem total_pages_cover (eng : Engine) (catalog : list Doc.t) (params : ListParams) :
  let r := GET eng catalog params in
  1 <= r_totalPages r
  /\ r_total r <= r_totalPages r * r_limit r
  /\ (0 < r_total r -> (r_totalPages r - 1) * r_limit r < r_total r)
  /\ (r_total r = 0 -> r_totalPages r = 1).
Proof. exact (total_pages_facts eng catalog params). Qed.

(** X10. A page of a listing is empty exactly when the pages before it
    hold all the matching products; so every page after the last one is
    empty, and every page up to the last one of a non-empty result is not. *)
Theorem empty_page (eng : Engine) (catalog : list Doc.t) (params : ListParams) :
  let r := GET eng catalog params in
  (r_items r = [] <-> r_total r <= (r_page r - 1) * r_limit r)
  /\ (r_totalPages r < r_page r -> r_items r = [])
  /\ (0 < r_total r -> r_page r <= r_totalPages r -> r_items r <> []).
Proof.
  pose proof (page_bounds params) as [Hp Hl].
  pose proof (total_pages_facts eng catalog params) as Hcover.
  cbv zeta in Hcover. revert Hcover.
  unfold GET. cbn [r_totalPages r_total r_limit r_page r_items].
  set (sel := filter (filter_matches eng (buildFilter params)) catalog).
  set (lim := Z.min 100 (Z.max 1 (JS.nullish (limit params) 12))) in *.
  set (pg := Z.max 1 (JS.nullish (page params) 1)) in *.
  set (sorted := sort_docs (sort_before (priceFilter params)) sel).
  assert (List.length sorted = List.length sel) as Hlen
    by apply length_sort_docs.
  intros (_ & Hc & Hlast & _).
  assert (firstn (Z.to_nat lim) (skipn (Z.to_nat ((pg - 1) * lim)) sorted) = []
          <-> Z.of_nat (List.length sel) <= (pg - 1) * lim) as Hiff.
  { split.
    - intros H. apply (f_equal (@List.length _)) in H.
      rewrite length_firstn, length_skipn in H. simpl in H. nia.
    - intros H. rewrite skipn_all2; [now rewrite firstn_nil|]. nia. }
  split; [exact Hiff|]. split.
  - intros Hlt. apply Hiff. nia.
  - intros Hpos Hle Hnil. apply Hiff in Hnil. specialize (Hlast Hpos). nia.
Qed.

Lemma empty_page_witness :
  r_items (GET literal_engine [doc 1 "Tijera" 50 None (Some 3)]
               {| page := Some 2; limit := None; q := EmptyString;
                  p_category := EmptyString; priceFilter := EmptyString;
                  maxPrice := None |})
  = [].
Proof.
  apply (proj1 (proj2 (empty_page literal_engine [doc 1 "Tijera" 50 None (Some 3)]
                  {| page := Some 2; limit := None; q := EmptyString;
                     p_category := EmptyString; priceFilter := EmptyString;
                     maxPrice := None |}))).
  vm_compute. reflexivity.
Defined.

Lemma category_kept (params : ListParams) :
  JS.str_truthy (p_category params) = true ->
  category (buildFilter params) = Some (p_category params).
Proof.
  intros H. unfold buildFilter. rewrite H.
  destruct (JS.str_truthy (q params));
    destruct (maxPrice params) as [m|]; try reflexivity;
    destruct (JS.truthy m); reflexivity.
Qed.

(** X11. The category of a request is always applied: with a non-empty
    category, every listed product has exactly that category, whatever the
    other parameters. *)
Theorem listed_in_category (eng : Engine) (catalog : list Doc.t) (params : ListParams)
  (d : Doc.t) :
  p_category params <> EmptyString ->
  In d (r_items (GET eng catalog params)) ->
  Doc.category d = Some (p_category params).
Proof.
  intros Hc Hin. apply CatalogProps.listed_matches in Hin.
  destruct Hin as [_ Hf]. unfold filter_matches in Hf.
  apply andb_prop in Hf. destruct Hf as [_ Hf].
  rewrite category_kept in Hf
    by (destruct (p_category params); [contradiction | reflexivity]).
  simpl in Hf. destruct (Doc.category d) as [k|]; [|discriminate].
  apply String.eqb_eq in Hf. now subst.
Qed.

Lemma listed_in_category_witness :
  Doc.category
    {| Doc._id := 2; Doc.name := "Tinte rubio"; Doc.price := 90;
       Doc.salePrice := None; Doc.stock := Some 1; Doc.quantity := Some 1;
       Doc.category := Some "tintes"%string |}
  = Some "tintes"%string.
Proof.
  apply (listed_in_category literal_engine
           [doc 1 "Tijera" 50 None (Some 3);
            {| Doc._id := 2; Doc.name := "Tinte rubio"; Doc.price := 90;
               Doc.salePrice := None; Doc.stock := Some 1;
               Doc.quantity := Some 1; Doc.category := Some "tintes"%string |}]
           {| page := None; limit := None; q := EmptyString;
              p_category := "tintes"; priceFilter := EmptyString;
              maxPrice := None |}).
  - discriminate.
  - vm_compute. left. reflexivity.
Defined.

(** X12. Without a price cap (no [maxPrice], or a [maxPrice] of zero), the
    text query is applied: every listed product has a name that contains the
    query, whatever the case of the letters. *)
Theorem listed_matches_query (eng : Engine) (catalog : list Doc.t) (params : ListParams)
  (d : Doc.t) :
  q params <> EmptyString ->
  maxPrice params = None \/ maxPrice params = Some 0 ->
  In d (r_items (GET eng catalog params)) ->
  regex_i eng (q params) (Doc.name d) = true.
Proof.
  intros Hq Hm Hin. apply CatalogProps.listed_matches in Hin.
  destruct Hin as [_ Hf]. unfold filter_matches in Hf.
  apply andb_prop in Hf. destruct Hf as [Hf _].
  assert (or_ (buildFilter params) = Some [NameRegexI (q params)]) as Hor.
  { unfold buildFilter.
    assert (JS.str_truthy (q params) = true) as ->
      by (destruct (q params); [contradiction | reflexivity]).
    destruct (JS.str_truthy (p_category params));
      destruct Hm as [-> | ->]; reflexivity. }
  rewrite Hor in Hf. simpl in Hf. now rewrite orb_false_r in Hf.
Qed.

Lemma listed_matches_query_witness :
  contains_ci "shampoo"
    (Doc.name (doc 2 "SHAMPOO Nutritivo" 500 None (Some 3))) = true.
Proof.
  apply (listed_matches_query literal_engine
           [doc 1 "Tijera" 50 None (Some 3);
            doc 2 "SHAMPOO Nutritivo" 500 None (Some 3)]
           (list_params "shampoo" (Some 0))
           (doc 2 "SHAMPOO Nutritivo" 500 None (Some 3))).
  - discriminate.
  - right. reflexivity.
  - vm_compute. left. reflexivity.
Defined.

(** X13. A non-zero [maxPrice] is applied to every listing: each listed
    product has its sale price, when it has a positive one below its price,
    or else its price, within [maxPrice]. *)
Theorem price_cap_respected (eng : Engine) (catalog : list Doc.t) (params : ListParams)
  (m : Z) (d : Doc.t) :
  maxPrice params = Some m -> m <> 0 ->
  In d (r_items (GET eng catalog params)) -> price_within m d.
Proof. exact (CatalogProps.listed_within_max_price eng catalog params m d). Qed.

(** The price cap at work: of a product at 50 and one at 500 with a sale
    price of 80, a [maxPrice] of 100 lists both. *)
Lemma price_cap_respected_witness :
  price_within 100 (doc 2 "Shampoo" 500 (Some 80) (Some 3)).
Proof.
  apply (price_cap_respected literal_engine
           [doc 1 "Tijera" 50 None (Some 3);
            doc 2 "Shampoo" 500 (Some 80) (Some 3)]
           (list_params EmptyString (Some 100)) 100
           (doc 2 "Shampoo" 500 (Some 80) (Some 3))).
  - reflexivity.
  - lia.
  - vm_compute. left. reflexivity.
Defined.

(** *** The order of a listing *)

Lemma sort_before_total (pf : string) (a b : Doc.t) :
  sort_before pf a b = false -> sort_before pf b a = true.
Proof.
  unfold sort_before.
  destruct (pf =? "low-to-high")%string;
    [|destruct (pf =? "high-to-low")%string]; zbool.
Qed.

Lemma sort_before_trans (pf : string) (a b c : Doc.t) :
  sort_before pf a b = true -> sort_before pf b c = true ->
  sort_before pf a c = true.
Proof.
  unfold sort_before.
  destruct (pf =? "low-to-high")%string;
    [|destruct (pf =? "high-to-low")%string]; zbool.
Qed.

Lemma insert_sorted_strongly (pf : string) (d : Doc.t) (l : list Doc.t) :
  StronglySorted (comes_before pf) l ->
  StronglySorted (comes_before pf) (insert_sorted (sort_before pf) d l).
Proof.
  induction l as [|x l IH]; intros Hs; simpl.
  - repeat constructor.
  - inversion Hs as [|? ? Hs' Hall]; subst.
    destruct (sort_before pf d x) eqn:E.
    + constructor; [exact Hs|]. constructor; [exact E|].
      rewrite Forall_forall in *. intros y Hy.
      exact (sort_before_trans pf d x y E (Hall y Hy)).
    + constructor; [now apply IH|].
      rewrite Forall_forall in *. intros y Hy.
      apply CatalogProps.in_insert_sorted in Hy. destruct Hy as [->|Hy].
      * now apply sort_before_total.
      * now apply Hall.
Qed.

Lemma sort_docs_strongly (pf : string) (l : list Doc.t) :
  StronglySorted (comes_before pf) (sort_docs (sort_before pf) l).
Proof.
  unfold sort_docs. induction l as [|x l IH]; simpl; [constructor|].
  now apply insert_sorted_strongly.
Qed.

Lemma strongly_skipn {A : Type} (R : A -> A -> Prop) (n : nat) (l : list A) :
  StronglySorted R l -> StronglySorted R (skipn n l).
Proof.
  revert l. induction n as [|n IH]; intros l Hs; [exact Hs|].
  destruct l as [|x l]; [constructor|]. simpl. apply IH.
  now inversion Hs.
Qed.

Lemma strongly_firstn {A : Type} (R : A -> A -> Prop) (n : nat) (l : list A) :
  StronglySorted R l -> StronglySorted R (firstn n l).
Proof.
  revert l. induction n as [|n IH]; intros l Hs; [constructor|].
  destruct l as [|x l]; [constructor|]. simpl.
  inversion Hs as [|? ? Hs' Hall]; subst.
  constructor; [now apply IH|].
  rewrite Forall_forall in *. intros y Hy. apply Hall.
  now apply (CatalogProps.in_firstn n).
Qed.

Lemma strongly_impl {A : Type} (R Q : A -> A -> Prop) (l : list A) :
  (forall a b, R a b -> Q a b) -> StronglySorted R l -> StronglySorted Q l.
Proof.
  intros HRQ. induction 1 as [|x l Hs IH Hall]; constructor; [exact IH|].
  rewrite Forall_forall in *. auto.
Qed.

(** X14. The items of a listing are in the order the price filter asks
    for: by ascending price for [low-to-high], by descending price for
    [high-to-low], and newest first (descending [_id]) for every other value;
    among equal prices the newest comes first. *)
Theorem listing_order (eng : Engine) (catalog : list Doc.t) (params : ListParams) :
  let l := r_items (GET eng catalog params) in
  StronglySorted (comes_before (priceFilter params)) l
  /\ (priceFilter params = "low-to-high"%string ->
      StronglySorted price_ascending l)
  /\ (priceFilter params = "high-to-low"%string ->
      StronglySorted price_descending l)
  /\ (priceFilter params <> "low-to-high"%string ->
      priceFilter params <> "high-to-low"%string ->
      StronglySorted newest_first l)
  /\ (forall a b rest1 rest2,
        l = rest1 ++ a :: b :: rest2 -> Doc.price a = Doc.price b ->
        Doc._id b <= Doc._id a).
Proof.
  cbv zeta.
  assert (StronglySorted (comes_before (priceFilter params))
            (r_items (GET eng catalog params))) as Hs.
  { unfold GET. cbn [r_items].
    apply strongly_firstn, strongly_skipn, sort_docs_strongly. }
  split; [exact Hs|]. split; [|split; [|split]].
  - intros Hpf. apply strongly_impl with (R := comes_before (priceFilter params));
      [|exact Hs].
    intros a b. unfold comes_before, sort_before, price_ascending.
    rewrite Hpf. simpl. zbool.
  - intros Hpf. apply strongly_impl with (R := comes_before (priceFilter params));
      [|exact Hs].
    intros a b. unfold comes_before, sort_before, price_descending.
    rewrite Hpf. simpl. zbool.
  - intros H1 H2. apply strongly_impl with (R := comes_before (priceFilter params));
      [|exact Hs].
    intros a b. unfold comes_before, sort_before, newest_first.
    destruct (String.eqb_spec (priceFilter params) "low-to-high");
      [contradiction|].
    destruct (String.eqb_spec (priceFilter params) "high-to-low");
      [contradiction|].
    zbool.
  - intros a b rest1 rest2 Hl Hp. rewrite Hl in Hs.
    clear Hl. induction rest1 as [|x rest1 IH]; simpl in Hs.
    + inversion Hs as [|? ? _ Hall]; subst.
      inversion Hall as [|? ? Hab _]; subst.
      unfold comes_before, sort_before in Hab.
      destruct (priceFilter params =? "low-to-high")%string;
        [|destruct (priceFilter params =? "high-to-low")%string];
        revert Hab; zbool.
    + inversion Hs. auto.
Qed.

(** *** The mutating handlers *)

Lemma unauthorized_false (session : option string) :
  unauthorized session = false <-> session = Some "admin"%string.
Proof.
  unfold unauthorized. destruct session as [role|]; [|split; discriminate].
  destruct (String.eqb_spec role "admin"); simpl; split; intros H;
    try discriminate; congruence.
Qed.

(** X15. No mutating handler answers with success, or reaches the store,
    without an administrator session: a success of [POST], [PUT] or [DELETE]
    implies the role [admin], and every other session gets 401 whatever the
    request holds and whatever the store would answer. *)
Theorem mutations_require_admin (gen : nat -> Z) (session : option string) :
  (forall body store status p,
      POST gen session body store = Json status p ->
      session = Some "admin"%string) /\
  (forall body store status b,
      PUT gen session body store = Json status b ->
      session = Some "admin"%string) /\
  (forall id store status b,
      DELETE session id store = Json status b ->
      session = Some "admin"%string) /\
  (session <> Some "admin"%string ->
   (forall body store,
       POST gen session body store = Error 401 "Unauthorized") /\
   (forall body store,
       PUT gen session body store = Error 401 "Unauthorized") /\
   (forall id store, DELETE session id store = Error 401 "Unauthorized")).
Proof.
  unfold POST, PUT, DELETE.
  destruct (unauthorized session) eqn:E.
  - repeat split; try discriminate; reflexivity.
  - apply unauthorized_false in E. repeat split; try (intros; exact E).
    all: intros; contradiction.
Qed.

Lemma mutations_require_admin_witness :
  DELETE (Some "cliente"%string) (Some "42"%string) store_ok
  = Error 401 "Unauthorized".
Proof.
  apply (proj2 (proj2 (proj2 (mutations_require_admin
                                (fun _ => 0) (Some "cliente"%string))))).
  discriminate.
Defined.

Lemma length_processFrom (gen : nat -> Z) (s : nat) (vs : list Raw.Variant) :
  List.length (processFrom gen s vs) = List.length vs.
Proof.
  revert s. induction vs as [|v vs IH]; intros s; simpl; [reflexivity|].
  now rewrite IH.
Qed.

Lemma nth_processFrom (gen : nat -> Z) (s i : nat) (vs : list Raw.Variant) :
  nth_error (processFrom gen s vs) i
  = option_map (processVariant gen (s + i)) (nth_error vs i).
Proof.
  revert s i. induction vs as [|v vs IH]; intros s [|i]; simpl; try reflexivity.
  - now rewrite Nat.add_0_r.
  - rewrite IH. now rewrite Nat.add_succ_r.
Qed.

(** X16. The answers of [POST] to an administrator: 500 when the body
    cannot be read; 400 when the name or the description is missing or
    empty or the price is missing, before the store is touched; for a
    complete body (a price of zero included) 500 when the store fails to
    connect or to save, and otherwise 201 with a product that carries that
    name and description and as many variants as were supplied. *)
Theorem create_validation (gen : nat -> Z) (store : StoreOutcome) :
  POST gen (Some "admin"%string) None store
  = Error 500 "Error al crear producto"
  /\ forall productData,
       (~ complete productData ->
        POST gen (Some "admin"%string) (Some productData) store
        = Error 400 "Faltan datos requeridos: nombre, descripción y precio") /\
       (complete productData ->
        (forall e, connectDB store = JS.Throw e ->
                   POST gen (Some "admin"%string) (Some productData) store
                   = Error 500 "Error al crear producto") /\
        (forall e, connectDB store = JS.Ok tt -> save store = JS.Throw e ->
                   POST gen (Some "admin"%string) (Some productData) store
                   = Error 500 "Error al crear producto") /\
        (connectDB store = JS.Ok tt -> save store = JS.Ok tt ->
         exists p,
           POST gen (Some "admin"%string) (Some productData) store = Json 201 p
           /\ Some (NewProduct.name p) = ProductData.name productData
           /\ Some (NewProduct.description p)
              = ProductData.description productData
           /\ List.length (NewProduct.variants p)
              = match ProductData.variants productData with
                | Some vs => List.length vs
                | None => 0%nat
                end)).
Proof.
  split; [reflexivity|]. intros productData. split.
  - intros Hnot. unfold POST. simpl.
    destruct (ProductData.price productData) as [z|] eqn:Hz; [|reflexivity].
    destruct (ProductData.name productData) as [[|c n]|] eqn:Hn;
      try reflexivity.
    destruct (ProductData.description productData) as [[|c' d]|] eqn:Hd;
      try reflexivity.
    exfalso. apply Hnot. unfold complete. rewrite Hz, Hn, Hd.
    repeat split; eexists; split; try reflexivity; discriminate.
  - intros Hcomplete.
    pose proof Hcomplete as ((n & Hn & Hn0) & (d & Hd & Hd0) & (z & Hz)).
    destruct n as [|c n]; [contradiction|].
    destruct d as [|c' d]; [contradiction|].
    split; [|split].
    + intros e He. unfold POST. simpl. rewrite Hz, Hn, Hd. simpl.
      rewrite He. reflexivity.
    + intros e Hc He. unfold POST. simpl. rewrite Hz, Hn, Hd. simpl.
      rewrite Hc, He. reflexivity.
    + intros Hc Hsave.
      destruct (CatalogProps.POST_created gen productData store Hcomplete Hc Hsave)
        as (p & Hp).
      exists p. split; [exact Hp|].
      apply CatalogProps.POST_json in Hp. cbv zeta in Hp.
      destruct Hp as (_ & _ & _ & _ & _ & _ & _ & _ & _ & _ & Hv & Hname & Hdesc).
      split; [exact Hname|]. split; [exact Hdesc|].
      rewrite Hv. unfold processVariants. rewrite length_processFrom.
      destruct (ProductData.variants productData); reflexivity.
Qed.

(** A price of zero is accepted; a store that cannot save gives 500. *)
Lemma create_validation_witness :
  (exists p,
      POST (fun _ => 0) (Some "admin"%string) (Some (product_data 0 None))
           store_ok
      = Json 201 p)
  /\ POST (fun _ => 0) (Some "admin"%string) (Some (product_data 0 None))
          {| connectDB := JS.Ok tt; save := JS.Throw "E11000";
             findByIdAndUpdate := JS.Ok true; findByIdAndDelete := JS.Ok true |}
     = Error 500 "Error al crear producto".
Proof.
  assert (complete (product_data 0 None)) as Hcomplete
    by (repeat split; eexists; try split; try reflexivity; discriminate).
  split.
  - destruct (proj2 (proj2 (proj2 (proj2 (create_validation (fun _ => 0) store_ok)
                                      (product_data 0 None)) Hcomplete))
                eq_refl eq_refl) as (p & Hp & _).
    exists p. exact Hp.
  - apply (proj1 (proj2 (proj2 (proj2 (create_validation (fun _ => 0)
                     {| connectDB := JS.Ok tt; save := JS.Throw "E11000";
                        findByIdAndUpdate := JS.Ok true;
                        findByIdAndDelete := JS.Ok true |})
                     (product_data 0 None)) Hcomplete)) "E11000"%string);
      reflexivity.
Defined.

(** X17. Processing keeps the variants in number and order and copies
    their fields; a variant keeps its [variant_id] when it has a non-zero
    one, and gets a generated one when it has none or has zero. *)
Theorem process_variants_keep (gen : nat -> Z) (vs : list Raw.Variant) :
  List.length (processVariants gen vs) = List.length vs
  /\ forall i v,
       nth_error vs i = Some v ->
       exists pv,
         nth_error (processVariants gen vs) i = Some pv
         /\ carries v pv
         /\ effective_price pv = effective_price_of v
         /\ (forall k, Raw.variant_id v = Some k -> k <> 0 -> variant_id pv = k)
         /\ (Raw.variant_id v = None \/ Raw.variant_id v = Some 0 ->
             variant_id pv = gen i).
Proof.
  unfold processVariants. split; [apply length_processFrom|].
  intros i v Hv. rewrite nth_processFrom, Hv. simpl.
  eexists. split; [reflexivity|].
  split; [repeat split|]. split; [apply effective_price_processVariant|]. split.
  - intros k Hk Hk0. simpl. rewrite Hk. simpl.
    apply JSFacts.truthy_true in Hk0. now rewrite Hk0.
  - intros [H|H]; simpl; rewrite H; reflexivity.
Qed.

Lemma process_variants_keep_witness :
  exists pv,
    nth_error (processVariants (fun i => 1000 + Z.of_nat i)
                 [raw 7 100 80 5 true; raw 0 120 0 0 false]) 1
    = Some pv
    /\ variant_id pv = 1001.
Proof.
  destruct (proj2 (process_variants_keep (fun i => 1000 + Z.of_nat i)
                     [raw 7 100 80 5 true; raw 0 120 0 0 false])
                  1%nat (raw 0 120 0 0 false) eq_refl)
    as (pv & Hnth & _ & _ & _ & Hgen).
  exists pv. split; [exact Hnth|].
  rewrite Hgen; [reflexivity | right; reflexivity].
Defined.

End CatalogMore.

(** ** Properties of the product detail view *)

Module ProductViewProps.
Import ProductPage ProductPageSpec ProductView.
Import Cart CartSpec CartFacts.

Lemma handle_selected (product : option IProduct) (s : ViewState)
  (e : ViewEvent) :
  (forall i, e <> ClickVariant i) ->
  selectedVariant (handle product s e) = selectedVariant s.
Proof.
  intros He. destruct e as [| |parsed|i]; simpl.
  - unfold incrementQuantity. destruct (_ <? _); reflexivity.
  - unfold decrementQuantity. destruct (_ >? _); reflexivity.
  - unfold onQuantityChange. destruct (_ && _); reflexivity.
  - exfalso. now apply (He i).
Qed.

Lemma handle_positive (product : option IProduct) (s : ViewState)
  (e : ViewEvent) :
  1 <= ProductView.quantity s -> 1 <= ProductView.quantity (handle product s e).
Proof.
  intros Hq. destruct e as [| |parsed|i]; simpl.
  - unfold incrementQuantity. destruct (_ <? _); simpl; lia.
  - unfold decrementQuantity.
    destruct (Z.gtb_spec (ProductView.quantity s) 1); simpl; lia.
  - unfold onQuantityChange.
    destruct (match parsed with Some n => JS.or_else n 1 | None => 1 end >=? 1)
      eqn:E; simpl; [|exact Hq].
    destruct (_ <=? _); simpl; [|exact Hq]. lia.
  - exact Hq.
Qed.

Lemma handle_within (product : option IProduct) (s : ViewState)
  (e : ViewEvent) :
  (forall i, e <> ClickVariant i) ->
  ProductView.quantity s <= Z.max 1 (stockOf product s) ->
  ProductView.quantity (handle product s e)
  <= Z.max 1 (stockOf product (handle product s e)).
Proof.
  intros He Hq.
  assert (stockOf product (handle product s e) = stockOf product s) as ->
    by (unfold stockOf; now rewrite handle_selected).
  destruct e as [| |parsed|i]; simpl.
  - unfold incrementQuantity.
    destruct (Z.ltb_spec (ProductView.quantity s) (stockOf product s));
      simpl; lia.
  - unfold decrementQuantity.
    destruct (Z.gtb_spec (ProductView.quantity s) 1); simpl; lia.
  - unfold onQuantityChange.
    destruct (_ >=? 1); simpl; [|exact Hq].
    destruct (Z.leb_spec (match parsed with
                          | Some n => JS.or_else n 1
                          | None => 1
                          end) (stockOf product s)); simpl; lia.
  - exfalso. now apply (He i).
Qed.

Lemma handle_all_positive (product : option IProduct) (s : ViewState)
  (events : list ViewEvent) :
  1 <= ProductView.quantity s ->
  1 <= ProductView.quantity (handle_all product s events).
Proof.
  unfold handle_all. revert s.
  induction events as [|e events IH]; intros s Hs; simpl; [exact Hs|].
  apply IH. now apply handle_positive.
Qed.

(** X18. In the detail view the quantity never falls below 1, whatever the
    shopper clicks or types; and as long as the variant is not changed, the
    quantity stays within the stock of the selected variant (or at 1 when
    that stock is below 1). *)
Theorem view_quantity_bounds (product : option IProduct)
  (events : list ViewEvent) :
  1 <= ProductView.quantity (handle_all product initialView events)
  /\ (Forall (fun e => forall i, e <> ClickVariant i) events ->
      let s := handle_all product initialView events in
      selectedVariant s = 0%nat
      /\ ProductView.quantity s <= Z.max 1 (stockOf product s)).
Proof.
  split.
  - apply handle_all_positive. simpl. lia.
  - intros Hall. cbv zeta. unfold handle_all.
    assert (selectedVariant initialView = 0%nat
            /\ ProductView.quantity initialView
               <= Z.max 1 (stockOf product initialView)) as H0
      by (split; [reflexivity | simpl; lia]).
    revert H0. generalize initialView.
    induction Hall as [|e events He _ IH]; intros s Hs; simpl; [exact Hs|].
    apply IH. destruct Hs as [Hsel Hq]. split.
    + now rewrite handle_selected.
    + now apply handle_within.
Qed.

Lemma view_quantity_bounds_witness :
  ProductView.quantity
    (handle_all (Some (product [variant 7 2])) initialView
                [ClickPlus; ClickPlus; ClickPlus; TypeQuantity (Some 9)])
  <= Z.max 1 (stockOf (Some (product [variant 7 2]))
                (handle_all (Some (product [variant 7 2])) initialView
                   [ClickPlus; ClickPlus; ClickPlus; TypeQuantity (Some 9)])).
Proof.
  apply (proj2 (view_quantity_bounds (Some (product [variant 7 2]))
                  [ClickPlus; ClickPlus; ClickPlus; TypeQuantity (Some 9)])).
  repeat constructor; intros i Hi; discriminate Hi.
Defined.

(** X19. Whatever the shopper did before, a click on "add to cart" calls
    the cart store at most once, and a call it makes carries the quantity of
    the view, which lies between 1 and the stock of the selected variant, and
    a line whose stock is that stock. *)
Theorem add_call_within_stock (product : option IProduct)
  (events : list ViewEvent) :
  let s := handle_all product initialView events in
  let calls := add_calls (clickAddToCart product s) in
  (List.length calls <= 1)%nat
  /\ forall item q,
       In (item, q) calls ->
       q = ProductView.quantity s
       /\ 1 <= q <= stockOf product s
       /\ Cart.stock item = Some (stockOf product s).
Proof.
  cbv zeta.
  assert (1 <= ProductView.quantity (handle_all product initialView events))
    as Hpos by (apply handle_all_positive; simpl; lia).
  unfold clickAddToCart, handleAddToCart, stockOf.
  set (s := handle_all product initialView events) in *.
  destruct product as [p|]; [|split; [simpl; lia | intros ? ? []]].
  destruct (selectedVariantData (Some p) (selectedVariant s)) as [v|];
    [|split; [simpl; lia | intros ? ? []]].
  destruct (Z.eqb_spec (availableStock (Some v)) 0);
    [split; [simpl; lia | intros ? ? []]|].
  destruct (Z.gtb_spec (ProductView.quantity s) (availableStock (Some v)));
    [split; [simpl; lia | intros ? ? []]|].
  split; [simpl; lia|].
  intros item q [Hcall|[]]. inversion Hcall; subst.
  unfold availableStock in *. simpl. repeat split; lia.
Qed.

Lemma add_call_within_stock_witness :
  add_calls (clickAddToCart (Some (product [variant 7 2]))
               (handle_all (Some (product [variant 7 2])) initialView
                  [ClickPlus; ClickPlus; ClickPlus]))
  = [({| Cart.id := "p1-7"; Cart.name := "Tinte - Color 1"; Cart.price := 100;
         Cart.image := "/placeholder.svg"; Cart.stock := Some 2;
         Cart.quantity := None |}, 2)]
  /\ 1 <= 2 <= stockOf (Some (product [variant 7 2]))
                (handle_all (Some (product [variant 7 2])) initialView
                   [ClickPlus; ClickPlus; ClickPlus]).
Proof.
  split; [reflexivity|].
  apply (proj2 (add_call_within_stock (Some (product [variant 7 2]))
                  [ClickPlus; ClickPlus; ClickPlus])
               {| Cart.id := "p1-7"; Cart.name := "Tinte - Color 1";
                  Cart.price := 100; Cart.image := "/placeholder.svg";
                  Cart.stock := Some 2; Cart.quantity := None |} 2).
  left. reflexivity.
Defined.

(** An AddItem of a positive quantity keeps a cart with unique line ids
    within the cart-line invariant. *)
Lemma add_item_well_formed (state : CartState) (payload : CartItem) (q : Z) :
  unique_ids state -> cart_invariant state -> 0 < q ->
  unique_ids (cartReducer state (ADD_ITEM payload q))
  /\ cart_invariant (cartReducer state (ADD_ITEM payload q)).
Proof.
  intros Hu Hinv Hq. unfold cartReducer.
  destruct (find_item (Cart.id payload) (items state)) as [e|] eqn:Hfind.
  - destruct (over_stock (stock e) (JS.nullish (Cart.quantity e) 0 + q))
      eqn:Hover; [now split|].
    destruct (find_item_some _ _ _ Hfind) as [He Hid].
    split.
    + unfold unique_ids. simpl. now rewrite map_quantity_ids.
    + rewrite <- Hid in *. apply CartProps.map_quantity_invariant;
        try assumption.
      * destruct (Hinv e He) as [_ Hpos]. unfold qty in Hpos. lia.
      * intros S HS HS0. exact (over_stock_false _ _ Hover S HS HS0).
  - destruct (over_stock (stock payload) q) eqn:Hover; [now split|].
    split.
    + unfold unique_ids. simpl. rewrite map_app. simpl.
      apply NoDup_app; [exact Hu | repeat constructor; intros [] |].
      intros x Hx [Hy|[]]. subst x. exact (find_item_none _ _ Hfind Hx).
    + intros item Hin. simpl in Hin. apply in_app_or in Hin.
      destruct Hin as [Hin|[<-|[]]]; [now apply Hinv|].
      apply CartProps.with_quantity_invariant; [exact Hq|].
      intros S HS HS0. exact (over_stock_false _ _ Hover S HS HS0).
Qed.

Lemma click_add_well_formed (product : option IProduct) (s : ViewState)
  (cart : CartState) :
  1 <= ProductView.quantity s -> unique_ids cart -> cart_invariant cart ->
  unique_ids (run_effects cart (clickAddToCart product s))
  /\ cart_invariant (run_effects cart (clickAddToCart product s)).
Proof.
  intros Hq Hu Hinv. unfold clickAddToCart, handleAddToCart.
  destruct product as [p|]; [|now split].
  destruct (selectedVariantData (Some p) (selectedVariant s)) as [v|];
    [|now split].
  destruct (availableStock (Some v) =? 0); [now split|].
  destruct (ProductView.quantity s >? availableStock (Some v)); [now split|].
  unfold run_effects. cbn [fold_left]. unfold addItem. cbn [JS.nullish].
  apply add_item_well_formed; try assumption. lia.
Qed.

(** X20. A cart that is filled through the detail view stays well formed:
    from a cart with unique line ids that satisfies the cart-line invariant,
    any visit of the view (quantity clicks, typed quantities, changes of
    variant, clicks on "add to cart", in any order) leaves a cart with unique
    line ids in which every line has a positive quantity of at most its
    non-zero stock. *)
Theorem visit_keeps_cart (product : option IProduct) (cart : CartState)
  (clicks : list Click) :
  unique_ids cart -> cart_invariant cart ->
  unique_ids (snd (visit product cart clicks))
  /\ cart_invariant (snd (visit product cart clicks)).
Proof.
  intros Hu Hinv. unfold visit.
  assert (1 <= ProductView.quantity (fst (initialView, cart))
          /\ unique_ids (snd (initialView, cart))
          /\ cart_invariant (snd (initialView, cart))) as H0
    by (simpl; split; [lia | split; assumption]).
  revert H0. generalize (initialView, cart).
  induction clicks as [|c clicks IH]; intros sc (Hq & Hu' & Hinv'); simpl.
  - now split.
  - apply IH. destruct c as [e|]; simpl.
    + split; [now apply handle_positive | now split].
    + split; [exact Hq|]. now apply click_add_well_formed.
Qed.

Lemma visit_keeps_cart_witness :
  cart_invariant
    (snd (visit (Some (product [variant 7 2])) initialState
            [View ClickPlus; AddToCart; View ClickPlus; AddToCart])).
Proof.
  apply (visit_keeps_cart (Some (product [variant 7 2])) initialState
           [View ClickPlus; AddToCart; View ClickPlus; AddToCart]).
  - unfold unique_ids. simpl. constructor.
  - intros item [].
Defined.

(** X21. The success notice does not tell that the cart took the items:
    when the line of the selected variant is already in the cart and the
    quantity asked for would take it above its non-zero stock, the click on
    "add to cart" still reports success, and the cart is as it was. *)
Theorem success_notice_on_rejected_add (p : IProduct)
  (vs : list Catalog.IVariant) (s : ViewState) (v : Catalog.IVariant)
  (cart : CartState) (e : CartItem) (S : Z) :
  variants p = Some vs -> nth_error vs (selectedVariant s) = Some v ->
  Catalog.stock_total v <> 0 ->
  ProductView.quantity s <= Catalog.stock_total v ->
  find_item (line_id p v) (items cart) = Some e ->
  stock e = Some S -> S <> 0 -> S < qty e + ProductView.quantity s ->
  let effects := clickAddToCart (Some p) s in
  In (ToastSuccess (JS.show (ProductView.quantity s)
                    ++ " producto(s) agregado(s) al carrito")%string) effects
  /\ run_effects cart effects = cart.
Proof.
  intros Hvs Hnth Hnz Hle Hfind Hst HS Hover.
  unfold clickAddToCart, handleAddToCart, selectedVariantData.
  rewrite Hvs, Hnth. unfold availableStock. rewrite JSFacts.or_else_zero.
  cbv zeta.
  destruct (Z.eqb_spec (Catalog.stock_total v) 0); [contradiction|].
  destruct (Z.gtb_spec (ProductView.quantity s) (Catalog.stock_total v));
    [lia|].
  split; [simpl; right; left; reflexivity|].
  unfold run_effects. cbn [fold_left]. unfold addItem, cartReducer.
  cbn [JS.nullish Cart.id]. rewrite Hfind, Hst.
  unfold qty in Hover. rewrite over_stock_true by assumption. reflexivity.
Qed.

Lemma success_notice_on_rejected_add_witness :
  run_effects {| items := [line "p1-7" 2 (Some 2)] |}
    (clickAddToCart (Some (product [variant 7 2])) initialView)
  = {| items := [line "p1-7" 2 (Some 2)] |}.
Proof.
  apply (success_notice_on_rejected_add
           (product [variant 7 2]) [variant 7 2] initialView (variant 7 2)
           {| items := [line "p1-7" 2 (Some 2)] |} (line "p1-7" 2 (Some 2)) 2);
    try reflexivity; try (simpl; lia); try (unfold qty; simpl; lia).
Defined.

End ProductViewProps.
